(** * stata_kernel: the Jupyter kernel class [StataKernel] of kernel.py

    The kernel object is modelled by explicit state passing.  Every method
    is an action that takes the kernel state and returns its result, the
    new kernel state and the list of effects it performed, in program
    order.  The collaborators that kernel.py imports from sibling modules
    (CodeManager, StataMagics, StataSession, CompletionsManager) are not
    part of kernel.py; the kernel is verified against arbitrary
    implementations of them, and later sections give models of the
    chunker and of the dispatcher written from the specification. *)

From Stdlib Require Import Ascii String.
From stdpp Require Import gmap strings list.

Local Open Scope string_scope.
Local Open Scope Z_scope.
Local Open Scope list_scope.

(** ** Python values that appear in the replies of the kernel *)

#[warnings="-register-all"]
Inductive PyVal : Type :=
| VInt (z : Z)
| VStr (s : string)
| VList (l : list PyVal)
| VDict (d : list (string * PyVal)).

(** A reply to the front-end is a Python dict with string keys. *)
Abbreviation Reply := (gmap string PyVal).

(** Truth value of a dict: empty dicts are falsy. *)
Definition dict_truthy (d : Reply) : bool := negb (Nat.eqb (size d) 0).

(** Truth value of an attribute that holds [None] or a dict. *)
Definition truthy (o : option Reply) : bool :=
  match o with
  | None => false
  | Some d => dict_truthy d
  end.

(** [if x: return x] for such an attribute: the dict that is returned,
    if any. *)
Definition returned_if_truthy (o : option Reply) : option Reply :=
  match o with
  | Some d => if dict_truthy d then Some d else None
  | None => None
  end.

(** ** Effects observed during a call

    The trace records what the code of kernel.py itself does: each load
    and store of [self.sc_delimit_mode], each call of a collaborator and
    each message it sends.  What a collaborator does inside such a call
    shows only in the kernel state it returns. *)

Inductive Event : Type :=
| EvReadDelim (b : bool)                 (* load of self.sc_delimit_mode *)
| EvWriteDelim (b : bool)                (* store to self.sc_delimit_mode *)
| EvCodeManager (code : string) (mode : bool)   (* CodeManager(code, mode) *)
| EvGetText                              (* cm.get_text(self.conf) *)
| EvMagic (code : string)                (* self.magics.magic(code, self) *)
| EvDo (text md5 exclude : string)       (* self.stata.do(...) *)
| EvPost                                 (* self.magics.post(self) *)
| EvRefresh                              (* self.completions.refresh(self) *)
| EvSend (msg_type : string) (content : Reply). (* self.send_response(iopub, ...) *)

Definition is_read (e : Event) : bool :=
  match e with EvReadDelim _ => true | _ => false end.
Definition is_write (e : Event) : bool :=
  match e with EvWriteDelim _ => true | _ => false end.
Definition is_tokenize (e : Event) : bool :=
  match e with EvCodeManager _ _ => true | _ => false end.
Definition is_get_text (e : Event) : bool :=
  match e with EvGetText => true | _ => false end.
Definition is_dispatch (e : Event) : bool :=
  match e with EvDo _ _ _ => true | _ => false end.
Definition is_send (e : Event) : bool :=
  match e with EvSend _ _ => true | _ => false end.

(** Number of events of a kind in a trace. *)
Definition count (p : Event -> bool) (tr : list Event) : nat :=
  length (filter (fun e => p e = true) tr).

(** The part of a trace before the chunking pass [cm.get_text], and the
    part from the chunking pass on. *)
Fixpoint before_chunking (tr : list Event) : list Event :=
  match tr with
  | [] => []
  | e :: tr' => if is_get_text e then [] else e :: before_chunking tr'
  end.

Fixpoint from_chunking (tr : list Event) : list Event :=
  match tr with
  | [] => []
  | e :: tr' => if is_get_text e then e :: tr' else from_chunking tr'
  end.

(** ** The objects the kernel holds *)

Module CodeManager.
(** What kernel.py uses of a CodeManager object: two attributes and
    [get_text], which returns (text_to_run, md5, text_to_exclude). *)
Record t {Config : Type} : Type := mk {
  is_complete : bool;
  ends_sc : bool;
  get_text : Config -> string * string * string
}.
Arguments t : clear implicits.
End CodeManager.

Module StataMagics.
(** [quit_early] is the attribute do_execute tests and returns; the
    rest of the object is private to the magics module. *)
Record t {Data : Type} : Type := mk {
  quit_early : option Reply;
  data : Data
}.
Arguments t : clear implicits.
End StataMagics.

Section Kernel.

Context {Config StataSession CompletionsManager MagicsData Graph Res : Type}.

(** The attributes set by [__init__], and [execution_count] of the
    ipykernel base class. *)
Record StataKernel : Type := mkKernel {
  execution_count : Z;
  conf : Config;
  graphs : gmap string Graph;
  magics : StataMagics.t MagicsData;
  sc_delimit_mode : bool;
  stata : StataSession;
  completions : CompletionsManager
}.

Definition with_sc_delimit_mode (b : bool) (k : StataKernel) : StataKernel :=
  {| execution_count := execution_count k;
     conf := conf k;
     graphs := graphs k;
     magics := magics k;
     sc_delimit_mode := b;
     stata := stata k;
     completions := completions k |}.

(** *** Collaborators

    [CodeManager_new code mode] is the constructor call
    [CodeManager(code, mode)]: it receives a string and a bool only.
    The other four receive the kernel object itself ([self], or a
    session that was built from it) and may change any attribute. *)
Variable CodeManager_new : string -> bool -> CodeManager.t Config.
Variable magic : string -> StataKernel -> string * StataKernel.
Variable stata_do :
  string -> string -> string -> StataKernel -> (Z * Res) * StataKernel.
Variable post : StataKernel -> StataKernel.
Variable refresh : StataKernel -> StataKernel.

(** *** Actions *)

Definition Act (A : Type) : Type := StataKernel -> A * StataKernel * list Event.

Definition ret {A} (a : A) : Act A := fun k => (a, k, []).

Definition bind {A B} (m : Act A) (f : A -> Act B) : Act B :=
  fun k =>
    let '(a, k1, t1) := m k in
    let '(b, k2, t2) := f a k1 in
    (b, k2, t1 ++ t2).

Notation "'let!' x ':=' c1 'in' c2" := (bind c1 (fun x => c2))
  (at level 10, x pattern, c1 at level 100, c2 at level 200, only parsing).

Definition get_sc_delimit_mode : Act bool :=
  fun k => (sc_delimit_mode k, k, [EvReadDelim (sc_delimit_mode k)]).

Definition set_sc_delimit_mode (b : bool) : Act unit :=
  fun k => (tt, with_sc_delimit_mode b k, [EvWriteDelim b]).

Definition get_execution_count : Act Z :=
  fun k => (execution_count k, k, []).

Definition get_conf : Act Config :=
  fun k => (conf k, k, []).

Definition get_quit_early : Act (option Reply) :=
  fun k => (StataMagics.quit_early (magics k), k, []).

Definition new_CodeManager (code : string) (mode : bool) : Act (CodeManager.t Config) :=
  fun k => (CodeManager_new code mode, k, [EvCodeManager code mode]).

Definition call_get_text (cm : CodeManager.t Config) (c : Config) :
  Act (string * string * string) :=
  fun k => (CodeManager.get_text cm c, k, [EvGetText]).

Definition call_magic (code : string) : Act string :=
  fun k => let '(code', k') := magic code k in (code', k', [EvMagic code]).

Definition call_do (text md5 exclude : string) : Act (Z * Res) :=
  fun k =>
    let '(r, k') := stata_do text md5 exclude k in
    (r, k', [EvDo text md5 exclude]).

Definition call_post : Act unit := fun k => (tt, post k, [EvPost]).

Definition call_refresh : Act unit := fun k => (tt, refresh k, [EvRefresh]).

Definition send_response (msg_type : string) (content : Reply) : Act unit :=
  fun k => (tt, k, [EvSend msg_type content]).

(** *** Methods of [StataKernel] *)

(** [return CodeManager(code, self.sc_delimit_mode).is_complete] *)
Definition is_complete (code : string) : Act bool :=
  let! mode := get_sc_delimit_mode in
  let! cm := new_CodeManager code mode in
  ret (CodeManager.is_complete cm).

Definition do_is_complete (code : string) : Act Reply :=
  let! c := is_complete code in
  if c then ret {[ "status" := VStr "complete" ]}
  else ret (<[ "indent" := VStr "    " ]> {[ "status" := VStr "incomplete" ]}).

(** The stream message of lines 84 to 87. *)
Definition delimiter_message (ends_sc : bool) : Reply :=
  let delim := if ends_sc then ";" else "cr" in
  <[ "name" := VStr "stdout" ]> {[ "text" := VStr ("delimiter now " +:+ delim) ]}.

(** [return_obj] as built on lines 66 to 72; [if rc:] tests [rc != 0]. *)
Definition make_return_obj (ec rc : Z) : Reply :=
  let return_obj : Reply := {[ "execution_count" := VInt ec ]} in
  if negb (rc =? 0) then
    <[ "status" := VStr "error" ]> return_obj
  else
    <[ "user_expressions" := VDict [] ]>
      (<[ "payload" := VList [] ]>
         (<[ "status" := VStr "ok" ]> return_obj)).

Definition do_execute (code : string) (silent : bool) : Act Reply :=
  let! c := is_complete code in
  if negb c then
    let! ec := get_execution_count in
    ret (<[ "execution_count" := VInt ec ]> {[ "status" := VStr "error" ]})
  else
    let! code := call_magic code in
    let! q := get_quit_early in
    match returned_if_truthy q with
    | Some response => ret response
    | None =>
      let! mode := get_sc_delimit_mode in
      let! cm := new_CodeManager code mode in
      let! c := get_conf in
      let! (text_to_run, md5, text_to_exclude) := call_get_text cm c in
      let! (rc, res) := call_do text_to_run md5 text_to_exclude in
      let! _ := call_post in
      let! ec := get_execution_count in
      let return_obj := make_return_obj ec rc in
      if silent then
        let! _ := call_refresh in
        ret return_obj
      else
        let! mode' := get_sc_delimit_mode in
        let! _ :=
          if negb (eqb (CodeManager.ends_sc cm) mode')
          then send_response "stream" (delimiter_message (CodeManager.ends_sc cm))
          else ret tt in
        let! _ := set_sc_delimit_mode (CodeManager.ends_sc cm) in
        let! _ := call_refresh in
        ret return_obj
    end.

(** *** The values a submission goes through *)

(** The text is complete in the mode the kernel is in. *)
Definition complete_for (code : string) (k : StataKernel) : bool :=
  CodeManager.is_complete (CodeManager_new code (sc_delimit_mode k)).

(** The response the interceptor leaves in [quit_early], if it is truthy. *)
Definition intercepted (code : string) (k : StataKernel) : option Reply :=
  returned_if_truthy (StataMagics.quit_early (magics (magic code k).2)).

(** The CodeManager of line 58: built from the text the interceptor
    returns and the flag as it is then. *)
Definition submission_cm (code : string) (k : StataKernel) : CodeManager.t Config :=
  CodeManager_new (magic code k).1 (sc_delimit_mode (magic code k).2).

(** Line 60: the call of the dispatcher on the output of [get_text]. *)
Definition dispatched (code : string) (k : StataKernel) : (Z * Res) * StataKernel :=
  let '(text_to_run, md5, text_to_exclude) :=
    CodeManager.get_text (submission_cm code k) (conf (magic code k).2) in
  stata_do text_to_run md5 text_to_exclude (magic code k).2.

Definition submission_rc (code : string) (k : StataKernel) : Z := (dispatched code k).1.1.

(** The kernel after line 63, [self.magics.post(self)]. *)
Definition after_post (code : string) (k : StataKernel) : StataKernel := post (dispatched code k).2.

Definition dispatch_event (code : string) (k : StataKernel) : Event :=
  let '(text_to_run, md5, text_to_exclude) :=
    CodeManager.get_text (submission_cm code k) (conf (magic code k).2) in
  EvDo text_to_run md5 text_to_exclude.

(** Events up to and including line 63 of a dispatched submission. *)
Definition dispatch_prefix (code : string) (k : StataKernel) : list Event :=
  [ EvReadDelim (sc_delimit_mode k);
    EvCodeManager code (sc_delimit_mode k);
    EvMagic code;
    EvReadDelim (sc_delimit_mode (magic code k).2);
    EvCodeManager (magic code k).1 (sc_delimit_mode (magic code k).2);
    EvGetText;
    dispatch_event code k;
    EvPost ].

(** The notification of lines 82 to 87. *)
Definition notification (code : string) (k : StataKernel) : list Event :=
  let ends := CodeManager.ends_sc (submission_cm code k) in
  if negb (eqb ends (sc_delimit_mode (after_post code k)))
  then [EvSend "stream" (delimiter_message ends)] else [].

End Kernel.

(** ** Tokenizer and chunk planner (module code_manager) *)

Module Chunker.

Definition nl : string := String "010"%char EmptyString.

Definition is_space (a : ascii) : bool :=
  (Ascii.eqb a " "%char || Ascii.eqb a "009"%char
   || Ascii.eqb a "010"%char || Ascii.eqb a "013"%char)%bool.

Fixpoint ltrim (s : string) : string :=
  match s with
  | String a s' => if is_space a then ltrim s' else s
  | EmptyString => EmptyString
  end.

Fixpoint rtrim (s : string) : string :=
  match s with
  | String a s' =>
      match rtrim s' with
      | EmptyString => if is_space a then EmptyString else String a EmptyString
      | r => String a r
      end
  | EmptyString => EmptyString
  end.

Definition trim (s : string) : string := ltrim (rtrim s).

Fixpoint last_char (s : string) : option ascii :=
  match s with
  | EmptyString => None
  | String a EmptyString => Some a
  | String _ s' => last_char s'
  end.

(** The pieces of [s] between occurrences of [c]; never empty. *)
Fixpoint split_on (c : ascii) (s : string) : list string :=
  match s with
  | EmptyString => [EmptyString]
  | String a s' =>
      if Ascii.eqb a c then EmptyString :: split_on c s'
      else match split_on c s' with
           | p :: ps => String a p :: ps
           | [] => [String a EmptyString]
           end
  end.

Definition physical_lines (text : string) : list string := split_on "010"%char text.

(** Modelled from the spec: comment stripping of the Tokenizer (module
    code_manager is not in kernel.py).  A line whose first non-blank
    character is [*] is a full-line comment.  Outside a string literal,
    [///] is the continuation marker and [//] starts a trailing
    comment; the marker, and everything after either on the line, is
    discarded.  The result is the kept text and whether the line
    continues on the next one. *)
Fixpoint strip_trailing (in_string : bool) (s : string) : string * bool :=
  match s with
  | EmptyString => (EmptyString, false)
  | String a s' =>
      if (negb in_string && String.prefix "///" s)%bool then (EmptyString, true)
      else if (negb in_string && String.prefix "//" s)%bool then (EmptyString, false)
      else
        let '(r, c) :=
          strip_trailing (if Ascii.eqb a "034"%char then negb in_string else in_string) s' in
        (String a r, c)
  end.

Definition strip_line (l : string) : string * bool :=
  if String.prefix "*" (ltrim l) then (EmptyString, false)
  else strip_trailing false l.

(** Modelled from the spec: continuation joining.  A physical line that
    ends in the continuation marker is joined with the next one.  The
    flag tells whether the last physical line still asks for a
    continuation. *)
Fixpoint logical_lines (ls : list string) : list string * bool :=
  match ls with
  | [] => ([], false)
  | l :: rest =>
      let '(body, continues) := strip_line l in
      match rest with
      | [] => ([body], continues)
      | _ :: _ =>
          let '(js, open) := logical_lines rest in
          if continues then
            match js with
            | j :: js' => ((body +:+ j) :: js', open)
            | [] => ([body], open)
            end
          else (body :: js, open)
      end
  end.

(** Modelled from the spec: the mode-switch directive, [#delimit ;] for
    semicolon mode ([true]) and [#delimit cr] for newline mode. *)
Definition directive (l : string) : option bool :=
  if String.eqb (trim l) "#delimit ;" then Some true
  else if String.eqb (trim l) "#delimit cr" then Some false
  else None.

(** Modelled from the spec: an opening brace opens a block when only
    blanks follow it on the line; a closing brace closes one when it
    stands alone on its line. *)
Definition opens_block (l : string) : bool :=
  match last_char (rtrim l) with
  | Some a => Ascii.eqb a "{"%char
  | None => false
  end.

Definition closes_block (l : string) : bool := String.eqb (trim l) "}".

(** Modelled from the spec: brace tracking on one line.  The pair is
    the number of closing block braces met at depth zero, which no
    opener precedes (malformed nesting), and the depth of the blocks
    that are open. *)
Definition brace_step (b : nat * nat) (l : string) : nat * nat :=
  if closes_block l then
    match b.2 with
    | O => (S b.1, O)
    | S d => (b.1, d)
    end
  else if opens_block l then (b.1, S b.2)
  else b.

(** A LogicalStatement: its normalized text and whether it is empty
    (suppressible). *)
Record LogicalStatement : Type := mkStatement {
  text : string;
  suppressible : bool
}.

Definition statement_of (s : string) : LogicalStatement :=
  {| text := trim s; suppressible := String.eqb (trim s) EmptyString |}.

Record ScanState : Type := mkScan {
  mode : bool;                      (* true: semicolon-delimited *)
  depth : nat;                      (* depth of the open blocks *)
  stray : nat;                      (* closing block braces met at depth zero *)
  pending : string;                 (* text of the unterminated statement *)
  out : list LogicalStatement       (* terminated statements, in order *)
}.

Definition extend (pending l : string) : string :=
  if String.eqb pending EmptyString then l else pending +:+ nl +:+ l.

(** In semicolon mode every piece but the last is terminated. *)
Fixpoint terminate_pieces (cur : string) (ps : list string) :
  list LogicalStatement * string :=
  match ps with
  | [] => ([], cur)
  | p :: ps' =>
      let '(o, rest) := terminate_pieces p ps' in
      (statement_of cur :: o, rest)
  end.

(** Modelled from the spec: one step of the Tokenizer on a logical
    line.  A directive line switches the mode for the lines after it
    and is consumed (kept as a suppressible statement).  The brace
    depth is updated on every line; while the depth is not zero the line only
    extends the pending statement; at depth zero a statement ends at
    the line boundary (newline mode) or at each [;] (semicolon mode; the
    spec names no way to escape a [;]). *)
Definition step (st : ScanState) (l : string) : ScanState :=
  let b := brace_step (stray st, depth st) l in
  match directive l with
  | Some m =>
      {| mode := m; depth := b.2; stray := b.1; pending := EmptyString;
         out := out st
                ++ (if String.eqb (pending st) EmptyString then []
                    else [statement_of (pending st)])
                ++ [{| text := trim l; suppressible := true |}] |}
  | None =>
      if (mode st && Nat.eqb (depth st) 0 && Nat.eqb b.2 0)%bool then
        match split_on ";"%char l with
        | p :: ps =>
            let '(o, rest) := terminate_pieces (extend (pending st) p) ps in
            {| mode := mode st; depth := b.2; stray := b.1; pending := rest;
               out := out st ++ o |}
        | [] =>
            {| mode := mode st; depth := b.2; stray := b.1; pending := pending st;
               out := out st |}
        end
      else if Nat.eqb b.2 0 then
        {| mode := mode st; depth := b.2; stray := b.1; pending := EmptyString;
           out := out st ++ [statement_of (extend (pending st) l)] |}
      else
        {| mode := mode st; depth := b.2; stray := b.1;
           pending := extend (pending st) l; out := out st |}
  end.

Definition scan (m : bool) (ls : list string) : ScanState :=
  fold_left step ls
    {| mode := m; depth := 0; stray := 0; pending := EmptyString; out := [] |}.

Definition statements_of (st : ScanState) : list LogicalStatement :=
  out st ++ (if String.eqb (pending st) EmptyString then []
             else [statement_of (pending st)]).

(** Result of the Tokenizer on a text and the mode it starts in: the
    statements, the mode in effect at the end of the text, and what is
    still open there. *)
Record Chunks : Type := mkChunks {
  statements : list LogicalStatement;
  end_mode : bool;
  end_depth : nat;
  stray_closers : nat;
  open_continuation : bool
}.

(** Modelled from the spec: the Tokenizer contract, from a text and the
    current mode to the statements and the ending mode (module
    code_manager is not in kernel.py). *)
Definition tokenize (code : string) (m : bool) : Chunks :=
  let '(ls, open) := logical_lines (physical_lines code) in
  let st := scan m ls in
  {| statements := statements_of st;
     end_mode := mode st;
     end_depth := depth st;
     stray_closers := stray st;
     open_continuation := open |}.

(** Modelled from the spec: a text is complete iff the brace depth is
    back to zero and no other structural blocker remains at its end: no
    malformed nesting (a closing block brace that nothing opened) and no
    open continuation. *)
Definition is_complete (c : Chunks) : bool :=
  (Nat.eqb (end_depth c) 0 && Nat.eqb (stray_closers c) 0
   && negb (open_continuation c))%bool.

(** Modelled from the spec: the Chunk Planner concatenates, in order,
    the statements that are not suppressible; the fingerprint is the
    hash of that text.  The spec names no syntax that marks a region as
    excluded, so the excluded text is empty. *)
Definition text_to_run (c : Chunks) : string :=
  String.concat nl (text <$> filter (fun s => suppressible s = false) (statements c)).

Section Planner.
Variable md5 : string -> string.

(** Modelled from the spec: the fingerprint of a submission, for a hash
    [md5] that the spec leaves open. *)
Definition fingerprint (code : string) (m : bool) : string :=
  md5 (text_to_run (tokenize code m)).

(** Modelled from the spec: [get_text] returns the text to run, its
    fingerprint and the excluded text. *)
Definition get_text (c : Chunks) : string * string * string :=
  (text_to_run c, md5 (text_to_run c), EmptyString).

(** Modelled from the spec: the CodeManager object that kernel.py
    builds from a text and a mode. *)
Definition CodeManager {Config : Type} (code : string) (m : bool) :
  CodeManager.t Config :=
  let c := tokenize code m in
  {| CodeManager.is_complete := is_complete c;
     CodeManager.ends_sc := end_mode c;
     CodeManager.get_text := fun _ => get_text c |}.
End Planner.

(** Texts in terms of their block braces, directives and comments. *)
Definition code_lines (code : string) : list string :=
  (logical_lines (physical_lines code)).1.

(** Bracket matching on the lines of a text, read from the last line
    to the first: a closing block brace waits for its opener; an opening
    block brace takes the nearest waiting closer if there is one, and is
    unmatched otherwise.  The pair is the number of closers still
    waiting and the number of unmatched openers. *)
Definition match_line (l : string) (r : nat * nat) : nat * nat :=
  if closes_block l then (S r.1, r.2)
  else if opens_block l then
    match r.1 with
    | O => (O, S r.2)
    | S w => (w, r.2)
    end
  else r.

Definition match_braces (ls : list string) : nat * nat :=
  fold_right match_line (0%nat, 0%nat) ls.

(** Closing block braces that no opening block brace precedes. *)
Definition unmatched_closers (code : string) : nat :=
  (match_braces (code_lines code)).1.

(** Opening block braces that no closing block brace answers. *)
Definition unmatched_openers (code : string) : nat :=
  (match_braces (code_lines code)).2.

(** Every block brace of the text has its partner. *)
Definition balanced (code : string) : bool :=
  (Nat.eqb (unmatched_openers code) 0 && Nat.eqb (unmatched_closers code) 0)%bool.

Definition is_directive (l : string) : bool :=
  match directive l with Some _ => true | None => false end.

Definition has_directive (code : string) : bool := existsb is_directive (code_lines code).

Definition ends_in_continuation (code : string) : bool :=
  (logical_lines (physical_lines code)).2.

End Chunker.

(** ** Session dispatcher (module stata_session) *)

Module Dispatcher.

(** Outcome recorded for one statement of a plan. *)
Inductive Outcome : Type :=
| Completed
| Failed (rc : Z)
| Fatal
| Unattempted.

(** Overall result of a plan. *)
Inductive Overall : Type :=
| AllCompleted
| Errored (rc : Z)
| FatalFailure.

Record DispatchResult : Type := mkResult {
  overall : Overall;
  outcomes : list Outcome;          (* one per statement of the plan *)
  captured : list string;           (* response text, in order *)
  side_events : list string         (* graph paths, forwarded unmodified *)
}.

(** The aggregated return code: zero only if every statement completed.
    A fatal condition is reported by [overall], its code is [-1]. *)
Definition return_code (r : DispatchResult) : Z :=
  match overall r with
  | AllCompleted => 0
  | Errored rc => rc
  | FatalFailure => -1
  end.

Definition is_completed (o : Outcome) : bool :=
  match o with Completed => true | _ => false end.
Definition is_failed (o : Outcome) : bool :=
  match o with Failed _ | Fatal => true | _ => false end.
Definition is_unattempted (o : Outcome) : bool :=
  match o with Unattempted => true | _ => false end.

Definition tally (p : Outcome -> bool) (os : list Outcome) : nat :=
  length (filter (fun o => p o = true) os).

Section Dispatch.

(** The external process and the adapter operation
    [send(statementText) -> (returnCode, capturedOutput,
    sideChannelEvents)]; [None] stands for a process that does not
    answer or has terminated. *)
Variable Proc : Type.
Variable send : string -> Proc -> option (Z * string * list string) * Proc.

(** Modelled from the spec: the Session Dispatcher (module
    stata_session is not in kernel.py).  Statements are sent one at a
    time, in order; the first statement that ends with a non-zero
    code, or that gets no answer, halts the plan and the statements
    after it are not sent. *)
Fixpoint dispatch (plan : list string) (p : Proc) : DispatchResult * Proc :=
  match plan with
  | [] =>
      ({| overall := AllCompleted; outcomes := [];
          captured := []; side_events := [] |}, p)
  | s :: rest =>
      match send s p with
      | (Some (rc, text, events), p') =>
          if rc =? 0 then
            let '(r, p'') := dispatch rest p' in
            ({| overall := overall r;
                outcomes := Completed :: outcomes r;
                captured := text :: captured r;
                side_events := events ++ side_events r |}, p'')
          else
            ({| overall := Errored rc;
                outcomes := Failed rc :: ((fun _ => Unattempted) <$> rest);
                captured := [text];
                side_events := events |}, p')
      | (None, p') =>
          ({| overall := FatalFailure;
              outcomes := Fatal :: ((fun _ => Unattempted) <$> rest);
              captured := [];
              side_events := [] |}, p')
      end
  end.

(** The process after the statements of [plan] have been sent to it in
    order, when each of them completes with code zero. *)
Fixpoint completes (plan : list string) (p : Proc) : option Proc :=
  match plan with
  | [] => Some p
  | s :: rest =>
      match send s p with
      | (Some (rc, _, _), p') => if rc =? 0 then completes rest p' else None
      | (None, _) => None
      end
  end.

End Dispatch.

End Dispatcher.

(** ** A small session to run the kernel on

    Concrete collaborators: the chunker and the dispatcher above, an
    external process that remembers the statements it completed, and a
    magic interceptor for texts that start with [%]. *)

Module Session.

(** The process fails on statements that start with [bad] (code 198),
    gives no answer to [exit], and completes everything else. *)
Definition send (s : string) (p : list string) :
  option (Z * string * list string) * list string :=
  if String.eqb s "exit" then (None, p)
  else if String.prefix "bad" s then (Some (198, "r(198);", []), p)
  else (Some (0, s, []), p ++ [s]).

Abbreviation Kernel :=
  (@StataKernel unit (list string) nat unit string).

Definition with_magics (q : option Reply) (k : Kernel) : Kernel :=
  {| execution_count := execution_count k;
     conf := conf k;
     graphs := graphs k;
     magics := {| StataMagics.quit_early := q; StataMagics.data := tt |};
     sc_delimit_mode := sc_delimit_mode k;
     stata := stata k;
     completions := completions k |}.

Definition with_stata (p : list string) (k : Kernel) : Kernel :=
  {| execution_count := execution_count k;
     conf := conf k;
     graphs := graphs k;
     magics := magics k;
     sc_delimit_mode := sc_delimit_mode k;
     stata := p;
     completions := completions k |}.

Definition with_completions (n : nat) (k : Kernel) : Kernel :=
  {| execution_count := execution_count k;
     conf := conf k;
     graphs := graphs k;
     magics := magics k;
     sc_delimit_mode := sc_delimit_mode k;
     stata := stata k;
     completions := n |}.

Definition md5 (s : string) : string := s.

Definition CodeManager_new (code : string) (m : bool) : CodeManager.t unit :=
  Chunker.CodeManager md5 code m.

Definition magic (code : string) (k : Kernel) : string * Kernel :=
  if String.prefix "%" code then
    (code,
     with_magics
       (Some (<[ "status" := VStr "ok" ]>
                {[ "execution_count" := VInt (execution_count k) ]})) k)
  else (code, with_magics None k).

Definition stata_do (text md5 exclude : string) (k : Kernel) :
  (Z * Dispatcher.DispatchResult) * Kernel :=
  let plan := if String.eqb text "" then [] else Chunker.physical_lines text in
  let '(r, p) := Dispatcher.dispatch (list string) send plan (stata k) in
  ((Dispatcher.return_code r, r), with_stata p k).

Definition post (k : Kernel) : Kernel := k.

Definition refresh (k : Kernel) : Kernel :=
  with_completions (S (completions k)) k.

Definition start : Kernel :=
  {| execution_count := 1;
     conf := tt;
     graphs := ∅;
     magics := {| StataMagics.quit_early := None; StataMagics.data := tt |};
     sc_delimit_mode := false;
     stata := [];
     completions := 0%nat |}.

Definition execute (code : string) (silent : bool) (k : Kernel) :
  Reply * Kernel * list Event :=
  do_execute CodeManager_new magic stata_do post refresh code silent k.

(** Sample texts. *)
Definition block : string :=
  "foreach x in a {" +:+ Chunker.nl +:+ " di 1" +:+ Chunker.nl +:+ "}".
Definition close_open : string := "}" +:+ Chunker.nl +:+ "{".

End Session.

(** ** The rest of kernel.py: do_complete and send_image *)

Definition is_magic (e : Event) : bool :=
  match e with EvMagic _ => true | _ => false end.
Definition is_post (e : Event) : bool :=
  match e with EvPost => true | _ => false end.
Definition is_refresh (e : Event) : bool :=
  match e with EvRefresh => true | _ => false end.

Module Slice.

(** Python slices [s[lo:hi]] of a str, with a step of one. *)

Fixpoint str_take (n : nat) (s : string) : string :=
  match n, s with
  | S n', String a s' => String a (str_take n' s')
  | _, _ => EmptyString
  end.

Fixpoint str_drop (n : nat) (s : string) : string :=
  match n, s with
  | S n', String _ s' => str_drop n' s'
  | _, _ => s
  end.

(** Where a bound falls in a string of length [n]: a negative bound
    counts from the end, and the result is clamped to [0, n]. *)
Definition bound (n : nat) (i : Z) : nat :=
  let j := if i <? 0 then i + Z.of_nat n else i in
  Z.to_nat (Z.min (Z.of_nat n) (Z.max 0 j)).

(** [s[lo:hi]]; [None] stands for an omitted bound. *)
Definition slice (s : string) (lo hi : option Z) : string :=
  let n := String.length s in
  let a := match lo with Some i => bound n i | None => 0%nat end in
  let b := match hi with Some i => bound n i | None => n end in
  str_take (b - a) (str_drop a s).

(** [s.endswith(suffix)] *)
Definition endswith (s suffix : string) : bool :=
  (Nat.leb (String.length suffix) (String.length s)
   && String.eqb (str_drop (String.length s - String.length suffix) s) suffix)%bool.

End Slice.

Section Completion.

Context {Config StataSession CompletionsManager MagicsData Graph : Type}.
Context {Env Chunk Rcomp : Type}.

(** The two methods of the completions manager that do_complete calls.
    The manager was built from the kernel object, so each call may
    change it. *)
Variable get_env :
  string -> string -> bool ->
  @StataKernel Config StataSession CompletionsManager MagicsData Graph ->
  (Env * Z * Chunk * Rcomp)
  * @StataKernel Config StataSession CompletionsManager MagicsData Graph.
Variable get :
  Chunk -> Env -> Rcomp ->
  @StataKernel Config StataSession CompletionsManager MagicsData Graph ->
  list string * @StataKernel Config StataSession CompletionsManager MagicsData Graph.

(** The arguments of [get_env] on lines 171 to 173: the text before the
    cursor, the two characters after it, and the current mode. *)
Definition completion_request (code : string) (cursor_pos : Z)
  (k : @StataKernel Config StataSession CompletionsManager MagicsData Graph) :
  string * string * bool :=
  (Slice.slice code None (Some cursor_pos),
   Slice.slice code (Some cursor_pos) (Some (cursor_pos + 2)),
   sc_delimit_mode k).

Definition do_complete (code : string) (cursor_pos : Z)
  (k : @StataKernel Config StataSession CompletionsManager MagicsData Graph) :
  Reply * @StataKernel Config StataSession CompletionsManager MagicsData Graph :=
  let '(before, after, mode) := completion_request code cursor_pos k in
  let '((env, pos, chunk, rcomp), k1) := get_env before after mode k in
  let '(matches, k2) := get chunk env rcomp k1 in
  (<[ "matches" := VList (VStr <$> matches) ]>
     (<[ "cursor_end" := VInt cursor_pos ]>
        (<[ "cursor_start" := VInt pos ]> {[ "status" := VStr "ok" ]})),
   k2).

End Completion.

Module Image.

(** What send_image raises: the two exceptions of its own expressions,
    and whatever the libraries raise. *)
Inductive Raised : Type :=
| KeyError (key : string)
| ValueError (arg : string)
| LibraryError (what : string).

(** The root element of a parsed file, as far as send_image looks at
    it: [root.attrib] and [ElementTree.tostring(root).decode('utf-8')]. *)
Record Root : Type := mkRoot {
  attrib : gmap string string;
  tostring : string
}.

Section SendImage.

(** True division yields a float; floats stay abstract. *)
Context {Float : Type}.

(** The content of a display_data message: nested dicts, in the order
    in which the keys are written. *)
#[warnings="-register-all"]
Inductive Content : Type :=
| CStr (s : string)
| CInt (z : Z)
| CFloat (f : Float)
| CDict (d : list (string * Content)).

(** The libraries send_image calls: [ElementTree.parse(path).getroot()],
    [Image.open(path).size], the bytes of the file as base64 text, the
    builtin [int] on a str ([None] when it raises ValueError) and true
    division of two ints. *)
Variable ElementTree_parse : string -> Raised + Root.
Variable Image_open : string -> Raised + (Z * Z).
Variable read_base64 : string -> Raised + string.
Variable int : string -> option Z.
Variable truediv : Z -> Z -> Float.

Definition no_display_msg : string :=
  "This front-end cannot display the desired image type.".

(** [int(root.attrib[key][:-2])] *)
Definition attribute_size (root : Root) (key : string) : Raised + Z :=
  match attrib root !! key with
  | None => inl (KeyError key)
  | Some v =>
      match int (Slice.slice v None (Some (-2))) with
      | None => inl (ValueError (Slice.slice v None (Some (-2))))
      | Some z => inr z
      end
  end.

(** The messages send_image sends with
    [self.send_response(self.iopub_socket, 'display_data', content)], or
    the exception it raises. *)
Definition send_image (graph_path : string) : Raised + list (string * Content) :=
  if Slice.endswith graph_path ".svg" then
    match ElementTree_parse graph_path with
    | inl e => inl e
    | inr root =>
        match attribute_size root "width" with
        | inl e => inl e
        | inr w =>
            match attribute_size root "height" with
            | inl e => inl e
            | inr h =>
                inr [("display_data",
                      CDict [("data",
                              CDict [("text/plain", CStr no_display_msg);
                                     ("image/svg+xml", CStr (tostring root))]);
                             ("metadata",
                              CDict [("image/svg+xml",
                                      CDict [("width", CInt w);
                                             ("height", CInt h)])])])]
            end
        end
    end
  else if Slice.endswith graph_path ".png" then
    match Image_open graph_path with
    | inl e => inl e
    | inr (width, height) =>
        match read_base64 graph_path with
        | inl e => inl e
        | inr img =>
            inr [("display_data",
                  CDict [("data",
                          CDict [("text/plain", CStr no_display_msg);
                                 ("image/png", CStr img)]);
                         ("metadata",
                          CDict [("image/png",
                                  CDict [("width", CFloat (truediv width 2));
                                         ("height", CFloat (truediv height 2))])])])]
        end
    end
  else inr [].

End SendImage.

End Image.

Section Paths.

Context {Config StataSession CompletionsManager MagicsData Graph : Type}.

Variable CodeManager_new : string -> bool -> CodeManager.t Config.
Variable magic :
  string -> @StataKernel Config StataSession CompletionsManager MagicsData Graph ->
  string * @StataKernel Config StataSession CompletionsManager MagicsData Graph.

(** The submission gets past both early returns of do_execute. *)
Definition dispatches (code : string)
  (k : @StataKernel Config StataSession CompletionsManager MagicsData Graph) : bool :=
  (complete_for CodeManager_new code k
   && match intercepted magic code k with None => true | Some _ => false end)%bool.

End Paths.

(** Every message in a trace announces a change of mode: it is a
    stream message with the text for [b], it comes right after a load of
    the flag that gave the other value, and right before the store of
    [b].  [prev] is the event before the trace. *)
Fixpoint announces (prev : option Event) (tr : list Event) : Prop :=
  match tr with
  | [] => True
  | e :: rest =>
      match e with
      | EvSend msg_type content =>
          match prev, rest with
          | Some (EvReadDelim old), EvWriteDelim b :: _ =>
              msg_type = "stream"
              /\ content = <[ "name" := VStr "stdout" ]>
                             {[ "text" := VStr (if b then "delimiter now ;"
                                                else "delimiter now cr") ]}
              /\ old = negb b
          | _, _ => False
          end
      | _ => True
      end
      /\ announces (Some e) rest
  end.

(** Collaborators of the small session for do_complete and send_image. *)
Module Session2.

Definition get_env (before after : string) (mode : bool) (k : Session.Kernel) :
  (unit * Z * string * unit) * Session.Kernel :=
  ((tt, Z.of_nat (String.length before), before, tt), k).

Definition get (chunk : string) (env rcomp : unit) (k : Session.Kernel) :
  list string * Session.Kernel :=
  ([chunk +:+ "1"; chunk +:+ "2"], k).

Definition graph_root : Image.Root :=
  {| Image.attrib := <[ "height" := "300px" ]> {[ "width" := "400pt" ]};
     Image.tostring := "<svg/>" |}.

Definition tiny_root : Image.Root :=
  {| Image.attrib := <[ "height" := "300px" ]> {[ "width" := "5" ]};
     Image.tostring := "<svg/>" |}.

Definition bare_root : Image.Root :=
  {| Image.attrib := {[ "height" := "300px" ]}; Image.tostring := "<svg/>" |}.

Definition ElementTree_parse (path : string) : Image.Raised + Image.Root :=
  if String.eqb path "Graph.svg" then inr graph_root
  else if String.eqb path "Tiny.svg" then inr tiny_root
  else if String.eqb path "Bare.svg" then inr bare_root
  else inl (Image.LibraryError "no such file").

Definition Image_open (path : string) : Image.Raised + (Z * Z) :=
  inl (Image.LibraryError "no such file").

Definition read_base64 (path : string) : Image.Raised + string :=
  inl (Image.LibraryError "no such file").

Definition int (s : string) : option Z :=
  if String.eqb s "400" then Some 400
  else if String.eqb s "300" then Some 300
  else None.

Definition truediv (a b : Z) : Z * Z := (a, b).

(** Collaborators that do nothing to the kernel. *)
Definition idle_magic (code : string) (k : Session.Kernel) : string * Session.Kernel :=
  (code, k).

Definition idle_do (text md5 exclude : string) (k : Session.Kernel) :
  (Z * unit) * Session.Kernel := ((0, tt), k).

Definition idle (k : Session.Kernel) : Session.Kernel := k.

End Session2.

(** * Properties of the kernel *)

Section KernelFacts.

Context {Config StataSession CompletionsManager MagicsData Graph Res : Type}.

Abbreviation K :=
  (@StataKernel Config StataSession CompletionsManager MagicsData Graph).

Variable CodeManager_new : string -> bool -> CodeManager.t Config.
Variable magic : string -> K -> string * K.
Variable stata_do : string -> string -> string -> K -> (Z * Res) * K.
Variable post : K -> K.
Variable refresh : K -> K.

Abbreviation execute := (do_execute CodeManager_new magic stata_do post refresh).
Abbreviation check := (is_complete (StataSession := StataSession)
                         (CompletionsManager := CompletionsManager)
                         (MagicsData := MagicsData) (Graph := Graph)
                         CodeManager_new).
Abbreviation ask := (do_is_complete (StataSession := StataSession)
                       (CompletionsManager := CompletionsManager)
                       (MagicsData := MagicsData) (Graph := Graph)
                       CodeManager_new).

Lemma run_is_complete code k :
  check code k =
    (complete_for CodeManager_new code k, k,
     [EvReadDelim (sc_delimit_mode k); EvCodeManager code (sc_delimit_mode k)]).
Proof. reflexivity. Qed.

Lemma run_incomplete code silent k :
  complete_for CodeManager_new code k = false ->
  execute code silent k =
    (<[ "execution_count" := VInt (execution_count k) ]>
       {[ "status" := VStr "error" ]},
     k,
     [EvReadDelim (sc_delimit_mode k); EvCodeManager code (sc_delimit_mode k)]).
Proof.
  intros H. unfold do_execute, bind. rewrite run_is_complete, H. reflexivity.
Qed.

Lemma run_intercepted code silent k response :
  complete_for CodeManager_new code k = true ->
  intercepted magic code k = Some response ->
  execute code silent k =
    (response, (magic code k).2,
     [EvReadDelim (sc_delimit_mode k); EvCodeManager code (sc_delimit_mode k);
      EvMagic code]).
Proof.
  intros Hc Hq. unfold intercepted in Hq.
  unfold do_execute, bind. rewrite run_is_complete, Hc. cbn [negb].
  unfold call_magic, get_quit_early.
  destruct (magic code k) as [code1 k1]. cbn [snd] in Hq.
  rewrite Hq. reflexivity.
Qed.

Lemma run_silent code k :
  complete_for CodeManager_new code k = true ->
  intercepted magic code k = None ->
  execute code true k =
    (make_return_obj (execution_count (after_post CodeManager_new magic stata_do post code k)) (submission_rc CodeManager_new magic stata_do code k),
     refresh (after_post CodeManager_new magic stata_do post code k),
     dispatch_prefix CodeManager_new magic code k ++ [EvRefresh]).
Proof.
  intros Hc Hq. unfold intercepted in Hq.
  unfold after_post, submission_rc, dispatch_prefix, dispatch_event, dispatched,
    submission_cm.
  unfold do_execute, bind. rewrite run_is_complete, Hc. cbn [negb].
  unfold call_magic, get_quit_early.
  destruct (magic code k) as [code1 k1]. cbn [fst snd] in *.
  rewrite Hq.
  unfold get_sc_delimit_mode, new_CodeManager, get_conf, call_get_text, call_do.
  destruct (CodeManager.get_text _ _) as [[t h] x].
  destruct (stata_do t h x k1) as [[rc res] k2]. reflexivity.
Qed.

Lemma run_loud code k :
  complete_for CodeManager_new code k = true ->
  intercepted magic code k = None ->
  execute code false k =
    (make_return_obj (execution_count (after_post CodeManager_new magic stata_do post code k)) (submission_rc CodeManager_new magic stata_do code k),
     refresh (with_sc_delimit_mode (CodeManager.ends_sc (submission_cm CodeManager_new magic code k))
                (after_post CodeManager_new magic stata_do post code k)),
     dispatch_prefix CodeManager_new magic code k
       ++ [EvReadDelim (sc_delimit_mode (after_post CodeManager_new magic stata_do post code k))]
       ++ notification CodeManager_new magic stata_do post code k
       ++ [EvWriteDelim (CodeManager.ends_sc (submission_cm CodeManager_new magic code k)); EvRefresh]).
Proof.
  intros Hc Hq. unfold intercepted in Hq.
  unfold notification, after_post, submission_rc, dispatch_prefix, dispatch_event,
    dispatched, submission_cm.
  unfold do_execute, bind. rewrite run_is_complete, Hc. cbn [negb].
  unfold call_magic, get_quit_early.
  destruct (magic code k) as [code1 k1]. cbn [fst snd] in *.
  rewrite Hq.
  unfold get_sc_delimit_mode, new_CodeManager, get_conf, call_get_text, call_do.
  destruct (CodeManager.get_text _ _) as [[t h] x].
  destruct (stata_do t h x k1) as [[rc res] k2]. cbn [fst snd].
  unfold call_post, get_execution_count. cbn.
  destruct (negb _); reflexivity.
Qed.

Lemma dispatch_event_do code k :
  exists t h x, dispatch_event CodeManager_new magic code k = EvDo t h x.
Proof.
  unfold dispatch_event. destruct (CodeManager.get_text _ _) as [[t h] x]. eauto.
Qed.

Lemma notification_cases code k :
  notification CodeManager_new magic stata_do post code k = [] \/
  exists m, notification CodeManager_new magic stata_do post code k = [EvSend "stream" m].
Proof. unfold notification. destruct (negb _); eauto. Qed.

(** Solves goals about the trace of a dispatched submission once the
    run lemma has been applied. *)
Ltac trace_cases code k :=
  unfold dispatch_prefix;
  let t := fresh "t" in let h := fresh "h" in let x := fresh "x" in
  let E := fresh "E" in let m := fresh "m" in
  destruct (dispatch_event_do code k) as (t & h & x & ->);
  destruct (notification_cases code k) as [E | [m E]]; rewrite ?E.

(** C1 (as amended): in a complete submission that is not intercepted
    and not silent, do_execute stores to sc_delimit_mode exactly once,
    after the chunking pass, and the value stored is cm.ends_sc of the
    CodeManager of that submission, whatever the dispatcher returns.
    The flag is loaded twice before the chunking pass (by the
    completeness check and to build the CodeManager) and once after it
    (for the comparison of line 82). *)
Theorem do_execute_flag_protocol code k :
  complete_for CodeManager_new code k = true ->
  intercepted magic code k = None ->
  let tr := (execute code false k).2 in
  let ends := CodeManager.ends_sc (submission_cm CodeManager_new magic code k) in
  filter (fun e => is_write e = true) tr = [EvWriteDelim ends]
  /\ count is_write (before_chunking tr) = 0%nat
  /\ count is_write (from_chunking tr) = 1%nat
  /\ count is_read (before_chunking tr) = 2%nat
  /\ count is_read (from_chunking tr) = 1%nat
  /\ (execute code false k).1.2
     = refresh (with_sc_delimit_mode ends (after_post CodeManager_new magic stata_do post code k)).
Proof.
  intros Hc Hq. rewrite (run_loud code k Hc Hq). cbn [fst snd].
  trace_cases code k; repeat split; reflexivity.
Qed.

(** What a silent dispatched submission does: no store, no message; the
    kernel is the one the completions refresh returns. *)
Lemma silent_dispatch code k :
  complete_for CodeManager_new code k = true ->
  intercepted magic code k = None ->
  count is_write (execute code true k).2 = 0%nat
  /\ count is_send (execute code true k).2 = 0%nat
  /\ (execute code true k).1.2 = refresh (after_post CodeManager_new magic stata_do post code k).
Proof.
  intros Hc Hq. rewrite (run_silent code k Hc Hq). cbn [fst snd].
  unfold dispatch_prefix.
  destruct (dispatch_event_do code k) as (t & h & x & ->).
  repeat split; reflexivity.
Qed.

(** C2 (as amended): in a complete submission that is not intercepted
    and not silent, the stream message [delimiter now ...] is sent
    exactly when cm.ends_sc differs from sc_delimit_mode as it is at
    line 82, whatever the dispatcher returns; that value is the one the
    submission started with whenever the interceptor, the dispatcher
    and the post hook leave the flag alone. *)
Theorem do_execute_notifies code k :
  complete_for CodeManager_new code k = true ->
  intercepted magic code k = None ->
  let tr := (execute code false k).2 in
  let ends := CodeManager.ends_sc (submission_cm CodeManager_new magic code k) in
  let now := sc_delimit_mode (after_post CodeManager_new magic stata_do post code k) in
  filter (fun e => is_send e = true) tr
    = (if eqb ends now then [] else [EvSend "stream" (delimiter_message ends)])
  /\ ((forall c k0, sc_delimit_mode (magic c k0).2 = sc_delimit_mode k0) ->
      (forall t h x k0, sc_delimit_mode (stata_do t h x k0).2 = sc_delimit_mode k0) ->
      (forall k0, sc_delimit_mode (post k0) = sc_delimit_mode k0) ->
      now = sc_delimit_mode k).
Proof.
  intros Hc Hq. rewrite (run_loud code k Hc Hq). cbn [fst snd]. split.
  - unfold dispatch_prefix, notification.
    destruct (dispatch_event_do code k) as (t & h & x & ->).
    destruct (eqb _ _); reflexivity.
  - intros Hm Hd Hp. unfold after_post, dispatched.
    destruct (CodeManager.get_text _ _) as [[t h] x].
    rewrite Hp, Hd, Hm. reflexivity.
Qed.

(** C3 (as amended): for a text that is not complete, do_is_complete
    answers with status [incomplete] and the indent, and do_execute
    answers with status [error] and the execution count; neither calls
    the interceptor, the chunk planner or the dispatcher, and neither
    changes the kernel. *)
Theorem incomplete_text_replies code silent k :
  complete_for CodeManager_new code k = false ->
  ask code k =
    (<[ "indent" := VStr "    " ]> {[ "status" := VStr "incomplete" ]}, k,
     [EvReadDelim (sc_delimit_mode k); EvCodeManager code (sc_delimit_mode k)])
  /\ execute code silent k =
    (<[ "execution_count" := VInt (execution_count k) ]>
       {[ "status" := VStr "error" ]}, k,
     [EvReadDelim (sc_delimit_mode k); EvCodeManager code (sc_delimit_mode k)]).
Proof.
  intros H. split.
  - unfold do_is_complete, bind. rewrite run_is_complete, H. reflexivity.
  - apply run_incomplete, H.
Qed.

Lemma dispatched_reply code silent k :
  complete_for CodeManager_new code k = true ->
  intercepted magic code k = None ->
  (execute code silent k).1.1
    = make_return_obj (execution_count (after_post CodeManager_new magic stata_do post code k)) (submission_rc CodeManager_new magic stata_do code k).
Proof.
  intros Hc Hq. destruct silent.
  - rewrite (run_silent code k Hc Hq). reflexivity.
  - rewrite (run_loud code k Hc Hq). reflexivity.
Qed.

Lemma return_obj_status ec rc :
  make_return_obj ec rc !! "status"
    = Some (VStr (if rc =? 0 then "ok" else "error")).
Proof. unfold make_return_obj. destruct (rc =? 0); reflexivity. Qed.

Lemma return_obj_count ec rc :
  make_return_obj ec rc !! "execution_count" = Some (VInt ec).
Proof. unfold make_return_obj. destruct (rc =? 0); reflexivity. Qed.

(** C4: a dispatched submission is answered with status [error]
    exactly when the return code of the dispatcher is not zero, and
    with status [ok] and the execution count when it is zero. *)
Theorem do_execute_status code silent k :
  complete_for CodeManager_new code k = true ->
  intercepted magic code k = None ->
  let reply := (execute code silent k).1.1 in
  let rc := submission_rc CodeManager_new magic stata_do code k in
  (reply !! "status" = Some (VStr "error") <-> rc <> 0)
  /\ (rc = 0 ->
      reply !! "status" = Some (VStr "ok")
      /\ reply !! "execution_count"
         = Some (VInt (execution_count (after_post CodeManager_new magic stata_do post code k))))
  /\ reply !! "execution_count"
     = Some (VInt (execution_count (after_post CodeManager_new magic stata_do post code k))).
Proof.
  intros Hc Hq. cbn zeta. rewrite (dispatched_reply code silent k Hc Hq).
  rewrite return_obj_status, return_obj_count.
  destruct (Z.eqb_spec (submission_rc CodeManager_new magic stata_do code k) 0) as [E | E].
  - rewrite E. repeat split; intros; done.
  - repeat split; intros; done.
Qed.

(** C5: when the interceptor leaves a truthy quit_early, do_execute
    returns that object; nothing runs after the interceptor: the trace
    ends with the call of the interceptor, it has no chunking pass and
    no dispatch, and the only CodeManager built is that of the
    completeness check, before the interceptor. *)
Theorem do_execute_quits_early code silent k response :
  complete_for CodeManager_new code k = true ->
  intercepted magic code k = Some response ->
  let tr := (execute code silent k).2 in
  (execute code silent k).1.1 = response
  /\ (execute code silent k).1.2 = (magic code k).2
  /\ tr = [EvReadDelim (sc_delimit_mode k);
           EvCodeManager code (sc_delimit_mode k); EvMagic code]
  /\ count is_get_text tr = 0%nat
  /\ count is_dispatch tr = 0%nat
  /\ count is_write tr = 0%nat.
Proof.
  intros Hc Hq. rewrite (run_intercepted code silent k response Hc Hq).
  repeat split; reflexivity.
Qed.

(** C6: is_complete and do_is_complete leave the kernel as it is, in
    particular sc_delimit_mode and graphs; all they do is load the flag
    and build a CodeManager: no dispatch, no store, no message. *)
Theorem is_complete_pure code k :
  (check code k).1.2 = k
  /\ (ask code k).1.2 = k
  /\ sc_delimit_mode (ask code k).1.2 = sc_delimit_mode k
  /\ graphs (ask code k).1.2 = graphs k
  /\ (check code k).2
     = [EvReadDelim (sc_delimit_mode k); EvCodeManager code (sc_delimit_mode k)]
  /\ (ask code k).2 = (check code k).2
  /\ count is_dispatch (ask code k).2 = 0%nat
  /\ count is_write (ask code k).2 = 0%nat
  /\ count is_send (ask code k).2 = 0%nat.
Proof.
  unfold do_is_complete, bind. rewrite run_is_complete. cbn [fst snd].
  destruct (complete_for CodeManager_new code k); repeat split; reflexivity.
Qed.

(** C10: the reply of a dispatched submission has exactly the keys
    status, execution_count, payload and user_expressions when the
    return code is zero, with an empty payload list and an empty
    user_expressions dict, and exactly the keys status and
    execution_count when it is not. *)
Theorem do_execute_reply_shape code silent k :
  complete_for CodeManager_new code k = true ->
  intercepted magic code k = None ->
  let reply := (execute code silent k).1.1 in
  let rc := submission_rc CodeManager_new magic stata_do code k in
  let ec := execution_count (after_post CodeManager_new magic stata_do post code k) in
  (rc = 0 ->
     reply = <[ "user_expressions" := VDict [] ]>
               (<[ "payload" := VList [] ]>
                  (<[ "status" := VStr "ok" ]>
                     {[ "execution_count" := VInt ec ]}))
     /\ dom reply = {[ "status"; "execution_count"; "payload"; "user_expressions" ]})
  /\ (rc <> 0 ->
     reply = <[ "status" := VStr "error" ]> {[ "execution_count" := VInt ec ]}
     /\ dom reply = {[ "status"; "execution_count" ]}
     /\ reply !! "payload" = None
     /\ reply !! "user_expressions" = None).
Proof.
  intros Hc Hq. cbn zeta. rewrite (dispatched_reply code silent k Hc Hq).
  unfold make_return_obj. split; intros E.
  - rewrite E. cbn [Z.eqb negb]. split; [reflexivity |].
    rewrite !dom_insert_L, dom_singleton_L. set_solver.
  - apply Z.eqb_neq in E. rewrite E. cbn [negb]. split; [reflexivity |].
    split; [| split; reflexivity].
    rewrite !dom_insert_L, dom_singleton_L. set_solver.
Qed.

End KernelFacts.

(** * Properties of the chunker *)

Module ChunkerFacts.
Import Chunker.

Lemma step_braces st l :
  (stray (step st l), depth (step st l)) = brace_step (stray st, depth st) l.
Proof.
  unfold step. destruct (directive l); [by destruct (brace_step _ _) |].
  destruct (mode st && Nat.eqb (depth st) 0
            && Nat.eqb (brace_step (stray st, depth st) l).2 0)%bool.
  - destruct (split_on ";" l); [by destruct (brace_step _ _) |].
    destruct (terminate_pieces _ _). by destruct (brace_step _ _).
  - destruct (Nat.eqb (brace_step (stray st, depth st) l).2 0);
      by destruct (brace_step _ _).
Qed.

Lemma step_mode st l : directive l = None -> mode (step st l) = mode st.
Proof.
  intros H. unfold step. rewrite H.
  destruct (mode st && Nat.eqb (depth st) 0
            && Nat.eqb (brace_step (stray st, depth st) l).2 0)%bool.
  - destruct (split_on ";" l); [reflexivity |].
    destruct (terminate_pieces _ _). reflexivity.
  - destruct (Nat.eqb (brace_step (stray st, depth st) l).2 0); reflexivity.
Qed.

Lemma fold_braces ls st :
  (stray (fold_left step ls st), depth (fold_left step ls st))
  = fold_left brace_step ls (stray st, depth st).
Proof.
  revert st. induction ls as [| l ls IH]; intros st; [reflexivity |].
  cbn [fold_left]. by rewrite IH, step_braces.
Qed.

Lemma match_braces_cons l ls :
  match_braces (l :: ls) = match_line l (match_braces ls).
Proof. reflexivity. Qed.

(** Reading the lines from the first to the last with a depth counter
    and reading them from the last to the first with bracket matching
    find the same unmatched braces.  From a state with [s] stray closers
    and depth [d], the [d] open blocks take the first waiting closers. *)
Lemma brace_fold ls : forall s d,
  fold_left brace_step ls (s, d)
  = ((s + ((match_braces ls).1 - d))%nat, ((match_braces ls).2 + (d - (match_braces ls).1))%nat).
Proof.
  induction ls as [| l ls IH]; intros s d.
  - cbn. f_equal; lia.
  - cbn [fold_left]. rewrite match_braces_cons.
    destruct (match_braces ls) as [a b] eqn:E.
    unfold brace_step, match_line. cbn [fst snd].
    destruct (closes_block l).
    + destruct d as [| d]; rewrite IH, ?E; cbn [fst snd]; f_equal; lia.
    + destruct (opens_block l).
      * rewrite IH, ?E. destruct a as [| a]; cbn [fst snd]; f_equal; lia.
      * rewrite IH, ?E. reflexivity.
Qed.

Lemma fold_mode ls st :
  existsb is_directive ls = false -> mode (fold_left step ls st) = mode st.
Proof.
  revert st. induction ls as [| l ls IH]; intros st H; [reflexivity |].
  cbn in H. apply orb_false_iff in H as [Hl Hls].
  cbn [fold_left]. rewrite (IH _ Hls). apply step_mode.
  unfold is_directive in Hl. destruct (directive l); [discriminate | reflexivity].
Qed.

(** What the Tokenizer has at the end of a text is what bracket matching
    leaves unmatched. *)
Lemma tokenize_braces code m :
  stray_closers (tokenize code m) = unmatched_closers code
  /\ end_depth (tokenize code m) = unmatched_openers code.
Proof.
  unfold tokenize, unmatched_closers, unmatched_openers, code_lines.
  destruct (logical_lines (physical_lines code)) as [ls o].
  cbn [fst stray_closers end_depth].
  pose proof (fold_braces ls
                {| mode := m; depth := 0; stray := 0; pending := EmptyString;
                   out := [] |}) as H.
  cbn [stray depth] in H. rewrite brace_fold in H.
  unfold scan. inversion H as [[H1 H2]]. split; lia.
Qed.

Lemma tokenize_mode code m :
  has_directive code = false -> end_mode (tokenize code m) = m.
Proof.
  unfold tokenize, has_directive, code_lines.
  destruct (logical_lines (physical_lines code)) as [ls o]. cbn [fst end_mode].
  intros H. unfold scan. rewrite (fold_mode _ _ H). reflexivity.
Qed.

Lemma tokenize_continuation code m :
  open_continuation (tokenize code m) = ends_in_continuation code.
Proof.
  unfold tokenize, ends_in_continuation.
  destruct (logical_lines (physical_lines code)) as [ls o]. reflexivity.
Qed.

(** C7 (as amended): a text whose block braces are balanced, that has
    no mode-switch directive and that does not end in an open
    continuation is complete, do_is_complete answers [complete] for it,
    and the mode at its end is the mode it started in; without a
    directive the end mode is the start mode in any case; a text with
    an odd number of unmatched block openers is not complete.  More
    generally a text is complete exactly when bracket matching leaves no
    opener and no closer unmatched and no continuation is open. *)
Theorem balanced_text_is_complete
  {Config StataSession CompletionsManager MagicsData Graph : Type}
  (md5 : string -> string) (code : string)
  (k : @StataKernel Config StataSession CompletionsManager MagicsData Graph) :
  let m := sc_delimit_mode k in
  let answer := (do_is_complete (CodeManager md5) code k).1.1 in
  (balanced code = true ->
   has_directive code = false ->
   ends_in_continuation code = false ->
   is_complete (tokenize code m) = true
   /\ answer = {[ "status" := VStr "complete" ]}
   /\ end_mode (tokenize code m) = m)
  /\ (has_directive code = false -> end_mode (tokenize code m) = m)
  /\ (Nat.odd (unmatched_openers code) = true ->
      is_complete (tokenize code m) = false
      /\ answer !! "status" = Some (VStr "incomplete"))
  /\ is_complete (tokenize code m)
     = (Nat.eqb (unmatched_openers code) 0 && Nat.eqb (unmatched_closers code) 0
        && negb (ends_in_continuation code))%bool.
Proof.
  cbn zeta. set (m := sc_delimit_mode k).
  assert (Hanswer : (do_is_complete (CodeManager md5) code k).1.1
                    = if is_complete (tokenize code m)
                      then {[ "status" := VStr "complete" ]}
                      else <[ "indent" := VStr "    " ]>
                             {[ "status" := VStr "incomplete" ]}).
  { unfold do_is_complete, bind. rewrite run_is_complete.
    unfold complete_for, CodeManager. cbn [CodeManager.is_complete]. fold m.
    destruct (is_complete (tokenize code m)); reflexivity. }
  rewrite Hanswer. clear Hanswer.
  unfold is_complete. destruct (tokenize_braces code m) as [-> ->].
  rewrite tokenize_continuation.
  split; [| split; [| split]].
  - intros Hb Hd Hc. unfold balanced in Hb. rewrite Hb, Hc. cbn.
    repeat split; try reflexivity. apply tokenize_mode, Hd.
  - apply tokenize_mode.
  - intros Hodd.
    destruct (unmatched_openers code) as [| n]; [discriminate |].
    split; reflexivity.
  - reflexivity.
Qed.

End ChunkerFacts.

(** * Properties of the dispatcher *)

Module DispatcherFacts.
Import Dispatcher.

Lemma tally_cons p o os :
  tally p (o :: os) = ((if p o then 1 else 0) + tally p os)%nat.
Proof.
  unfold tally. rewrite filter_cons.
  destruct (p o) eqn:E; case_decide; try congruence; reflexivity.
Qed.

Lemma tally_replicate p o n :
  tally p (replicate n o) = if p o then n else 0%nat.
Proof.
  induction n as [| n IH]; cbn [replicate].
  - destruct (p o); reflexivity.
  - rewrite tally_cons, IH. destruct (p o); reflexivity.
Qed.

Lemma tally_app p os os' : tally p (os ++ os') = (tally p os + tally p os')%nat.
Proof. unfold tally. by rewrite filter_app, length_app. Qed.

(** The tallies of a halted plan. *)
Lemma tally_halted i o n :
  is_failed o = true ->
  let os := replicate i Completed ++ o :: replicate n Unattempted in
  tally is_completed os = i /\ tally is_failed os = 1%nat /\ tally is_unattempted os = n.
Proof.
  intros Ho. cbn zeta. rewrite !tally_app, !tally_cons, !tally_replicate, Ho. cbn.
  destruct o; try discriminate; cbn; lia.
Qed.

Section Dispatch.
Variable Proc : Type.
Variable send : string -> Proc -> option (Z * string * list string) * Proc.

Abbreviation run := (dispatch Proc send).

Lemma unattempted_rest (rest : list string) :
  (fun _ => Unattempted) <$> rest = replicate (length rest) Unattempted.
Proof. induction rest as [| s rest IH]; cbn; [| rewrite IH]; reflexivity. Qed.

(** A statement that fails after a prefix that completes: the plan
    stops there, in the state the failing send left. *)
Lemma run_error pre : forall p q s post rc text events q',
  completes Proc send pre p = Some q ->
  send s q = (Some (rc, text, events), q') ->
  rc <> 0 ->
  overall (run (pre ++ s :: post) p).1 = Errored rc
  /\ outcomes (run (pre ++ s :: post) p).1
     = replicate (length pre) Completed
       ++ Failed rc :: replicate (length post) Unattempted
  /\ (run (pre ++ s :: post) p).2 = q'.
Proof.
  induction pre as [| a pre IH]; intros p q s post rc text events q' Hc Hs Hrc.
  - cbn in Hc. inversion Hc; subst q. cbn [app dispatch]. rewrite Hs.
    apply Z.eqb_neq in Hrc. rewrite Hrc. cbn [fst snd overall outcomes].
    rewrite unattempted_rest. repeat split.
  - cbn [completes] in Hc. cbn [app dispatch].
    destruct (send a p) as [[[[rc0 text0] events0] |] p0]; [| discriminate].
    destruct (rc0 =? 0); [| discriminate].
    destruct (IH p0 q s post rc text events q' Hc Hs Hrc) as (Ho & Hos & Hp).
    destruct (run (pre ++ s :: post) p0) as [r p1]. cbn [fst snd] in *.
    cbn [overall outcomes length replicate]. rewrite Hos. repeat split; assumption.
Qed.

(** The same when the process gives no answer. *)
Lemma run_fatal pre : forall p q s post q',
  completes Proc send pre p = Some q ->
  send s q = (None, q') ->
  overall (run (pre ++ s :: post) p).1 = FatalFailure
  /\ outcomes (run (pre ++ s :: post) p).1
     = replicate (length pre) Completed
       ++ Fatal :: replicate (length post) Unattempted
  /\ (run (pre ++ s :: post) p).2 = q'.
Proof.
  induction pre as [| a pre IH]; intros p q s post q' Hc Hs.
  - cbn in Hc. inversion Hc; subst q. cbn [app dispatch]. rewrite Hs.
    cbn [fst snd overall outcomes]. rewrite unattempted_rest. repeat split.
  - cbn [completes] in Hc. cbn [app dispatch].
    destruct (send a p) as [[[[rc0 text0] events0] |] p0]; [| discriminate].
    destruct (rc0 =? 0); [| discriminate].
    destruct (IH p0 q s post q' Hc Hs) as (Ho & Hos & Hp).
    destruct (run (pre ++ s :: post) p0) as [r p1]. cbn [fst snd] in *.
    cbn [overall outcomes length replicate]. rewrite Hos. repeat split; assumption.
Qed.

(** A plan whose statements all complete is reported as completed. *)
Lemma run_completes plan : forall p q,
  completes Proc send plan p = Some q ->
  overall (run plan p).1 = AllCompleted
  /\ outcomes (run plan p).1 = replicate (length plan) Completed
  /\ (run plan p).2 = q.
Proof.
  induction plan as [| a plan IH]; intros p q Hc.
  - cbn in Hc. inversion Hc. repeat split.
  - cbn [completes] in Hc. cbn [dispatch].
    destruct (send a p) as [[[[rc0 text0] events0] |] p0]; [| discriminate].
    destruct (rc0 =? 0); [| discriminate].
    destruct (IH p0 q Hc) as (Ho & Hos & Hp).
    destruct (run plan p0) as [r p1]. cbn [fst snd] in *.
    cbn [overall outcomes length replicate]. rewrite Hos. repeat split; assumption.
Qed.

(** C9: when the statements [pre] of a plan complete and the process
    answers the next statement [s] with a non-zero code, the dispatcher
    reports that code as the error of the plan, records the statements
    of [pre] as completed, [s] as failed and every later statement as
    unattempted, and sends none of the later statements: the process is
    left in the state of the failing send.  In a plan of three
    statements whose second one fails the tallies are one, one and one.
    The plan halts in the same way when the process gives no answer. *)
Theorem dispatch_halts_on_first_error pre s post p q :
  completes Proc send pre p = Some q ->
  (forall rc text events q',
      send s q = (Some (rc, text, events), q') ->
      rc <> 0 ->
      let r := (run (pre ++ s :: post) p).1 in
      overall r = Errored rc
      /\ return_code r <> 0
      /\ outcomes r
         = replicate (length pre) Completed
           ++ Failed rc :: replicate (length post) Unattempted
      /\ (run (pre ++ s :: post) p).2 = q'
      /\ tally is_completed (outcomes r) = length pre
      /\ tally is_failed (outcomes r) = 1%nat
      /\ tally is_unattempted (outcomes r) = length post
      /\ (length pre = 1%nat -> length post = 1%nat ->
          tally is_completed (outcomes r) = 1%nat
          /\ tally is_failed (outcomes r) = 1%nat
          /\ tally is_unattempted (outcomes r) = 1%nat))
  /\ (forall q',
        send s q = (None, q') ->
        let r := (run (pre ++ s :: post) p).1 in
        overall r = FatalFailure
        /\ return_code r <> 0
        /\ outcomes r
           = replicate (length pre) Completed
             ++ Fatal :: replicate (length post) Unattempted
        /\ (run (pre ++ s :: post) p).2 = q').
Proof.
  intros Hc. split.
  - intros rc text events q' Hs Hrc. cbn zeta.
    destruct (run_error pre p q s post rc text events q' Hc Hs Hrc) as (Ho & Hos & Hp).
    destruct (tally_halted (length pre) (Failed rc) (length post) eq_refl)
      as (T1 & T2 & T3).
    rewrite <- Hos in T1, T2, T3.
    split; [exact Ho |].
    split; [unfold return_code; by rewrite Ho |].
    split; [exact Hos |]. split; [exact Hp |].
    split; [exact T1 |]. split; [exact T2 |]. split; [exact T3 |].
    intros H1 H3. rewrite T1, T2, T3, H1, H3. repeat split.
  - intros q' Hs. cbn zeta.
    destruct (run_fatal pre p q s post q' Hc Hs) as (Ho & Hos & Hp).
    split; [exact Ho |].
    split; [unfold return_code; by rewrite Ho |].
    split; [exact Hos |]. exact Hp.
Qed.

End Dispatch.

End DispatcherFacts.

(** * Runs of the kernel on the small session *)

Module Runs.
Import Session.

Abbreviation complete := (complete_for CodeManager_new).
Abbreviation quits := (intercepted magic).
Abbreviation cm_of := (submission_cm CodeManager_new magic).
Abbreviation rc_of := (submission_rc CodeManager_new magic stata_do).
Abbreviation posted := (after_post CodeManager_new magic stata_do post).
Abbreviation ask := (do_is_complete CodeManager_new).

(** A loud [#delimit ;] in newline mode: one store, of [true]. *)
Lemma flag_protocol_run :
  complete "#delimit ;" start = true
  /\ quits "#delimit ;" start = None
  /\ sc_delimit_mode (execute "#delimit ;" false start).1.2 = true
  /\ (let tr := (execute "#delimit ;" false start).2 in
      let ends := CodeManager.ends_sc (cm_of "#delimit ;" start) in
      filter (fun e => is_write e = true) tr = [EvWriteDelim ends]
      /\ count is_write (before_chunking tr) = 0%nat
      /\ count is_write (from_chunking tr) = 1%nat
      /\ count is_read (before_chunking tr) = 2%nat
      /\ count is_read (from_chunking tr) = 1%nat
      /\ (execute "#delimit ;" false start).1.2
         = refresh (with_sc_delimit_mode ends (posted "#delimit ;" start))).
Proof.
  split; [vm_compute; reflexivity |]. split; [vm_compute; reflexivity |].
  split; [vm_compute; reflexivity |].
  apply (do_execute_flag_protocol CodeManager_new magic stata_do post refresh
           "#delimit ;" start); vm_compute; reflexivity.
Defined.

(** C1 fails as stated: a silent [#delimit ;] in newline mode is
    complete and not intercepted, its text ends in semicolon mode, yet
    the flag is loaded twice before the chunking pass, never stored,
    and still says newline mode afterwards. *)
Lemma silent_run_never_stores :
  complete "#delimit ;" start = true
  /\ quits "#delimit ;" start = None
  /\ CodeManager.ends_sc (cm_of "#delimit ;" start) = true
  /\ count is_read (before_chunking (execute "#delimit ;" true start).2) = 2%nat
  /\ count is_write (execute "#delimit ;" true start).2 = 0%nat
  /\ sc_delimit_mode (execute "#delimit ;" true start).1.2 = false.
Proof. repeat split; vm_compute; reflexivity. Qed.

Lemma notification_run :
  complete "#delimit ;" start = true
  /\ quits "#delimit ;" start = None
  /\ (let tr := (execute "#delimit ;" false start).2 in
      let ends := CodeManager.ends_sc (cm_of "#delimit ;" start) in
      let now := sc_delimit_mode (posted "#delimit ;" start) in
      filter (fun e => is_send e = true) tr
        = (if eqb ends now then [] else [EvSend "stream" (delimiter_message ends)])
      /\ ((forall c k0, sc_delimit_mode (magic c k0).2 = sc_delimit_mode k0) ->
          (forall t h x k0, sc_delimit_mode (stata_do t h x k0).2 = sc_delimit_mode k0) ->
          (forall k0, sc_delimit_mode (post k0) = sc_delimit_mode k0) ->
          now = sc_delimit_mode start))
  /\ filter (fun e => is_send e = true) (execute "#delimit ;" false start).2
     = [EvSend "stream" (delimiter_message true)].
Proof.
  split; [vm_compute; reflexivity |]. split; [vm_compute; reflexivity |].
  split; [| vm_compute; reflexivity].
  apply (do_execute_notifies CodeManager_new magic stata_do post refresh
           "#delimit ;" start); vm_compute; reflexivity.
Defined.

(** C2 fails as stated: in a silent [#delimit ;] the mode at the end
    (semicolon) differs from the mode at the start (newline) and no
    message is sent. *)
Lemma silent_run_sends_nothing :
  complete "#delimit ;" start = true
  /\ quits "#delimit ;" start = None
  /\ sc_delimit_mode start = false
  /\ CodeManager.ends_sc (cm_of "#delimit ;" start) = true
  /\ count is_send (execute "#delimit ;" true start).2 = 0%nat.
Proof. repeat split; vm_compute; reflexivity. Qed.

Lemma incomplete_run :
  complete "foreach x in a {" start = false
  /\ ask "foreach x in a {" start =
       (<[ "indent" := VStr "    " ]> {[ "status" := VStr "incomplete" ]}, start,
        [EvReadDelim (sc_delimit_mode start);
         EvCodeManager "foreach x in a {" (sc_delimit_mode start)])
  /\ execute "foreach x in a {" false start =
       (<[ "execution_count" := VInt (execution_count start) ]>
          {[ "status" := VStr "error" ]}, start,
        [EvReadDelim (sc_delimit_mode start);
         EvCodeManager "foreach x in a {" (sc_delimit_mode start)]).
Proof.
  split; [vm_compute; reflexivity |].
  apply (incomplete_text_replies CodeManager_new magic stata_do post refresh
           "foreach x in a {" false start); vm_compute; reflexivity.
Defined.

(** C3 fails as stated: for an unterminated block do_is_complete says
    [incomplete], and do_execute reports status [error]. *)
Lemma unterminated_block_is_an_error :
  complete "foreach x in a {" start = false
  /\ (ask "foreach x in a {" start).1.1 !! "status" = Some (VStr "incomplete")
  /\ (execute "foreach x in a {" false start).1.1 !! "status" = Some (VStr "error")
  /\ (execute "foreach x in a {" true start).1.1 !! "status" = Some (VStr "error").
Proof. repeat split; vm_compute; reflexivity. Qed.

Lemma status_run :
  complete "bad 1" start = true
  /\ quits "bad 1" start = None
  /\ rc_of "bad 1" start = 198
  /\ (let reply := (execute "bad 1" false start).1.1 in
      let rc := rc_of "bad 1" start in
      (reply !! "status" = Some (VStr "error") <-> rc <> 0)
      /\ (rc = 0 ->
          reply !! "status" = Some (VStr "ok")
          /\ reply !! "execution_count"
             = Some (VInt (execution_count (posted "bad 1" start))))
      /\ reply !! "execution_count"
         = Some (VInt (execution_count (posted "bad 1" start)))).
Proof.
  split; [vm_compute; reflexivity |]. split; [vm_compute; reflexivity |].
  split; [vm_compute; reflexivity |].
  apply (do_execute_status CodeManager_new magic stata_do post refresh
           "bad 1" false start); vm_compute; reflexivity.
Defined.

Lemma quit_early_run :
  complete "%help" start = true
  /\ quits "%help" start
     = Some (<[ "status" := VStr "ok" ]> {[ "execution_count" := VInt 1 ]})
  /\ (let tr := (execute "%help" false start).2 in
      (execute "%help" false start).1.1
        = <[ "status" := VStr "ok" ]> {[ "execution_count" := VInt 1 ]}
      /\ (execute "%help" false start).1.2 = (magic "%help" start).2
      /\ tr = [EvReadDelim (sc_delimit_mode start);
               EvCodeManager "%help" (sc_delimit_mode start); EvMagic "%help"]
      /\ count is_get_text tr = 0%nat
      /\ count is_dispatch tr = 0%nat
      /\ count is_write tr = 0%nat).
Proof.
  split; [vm_compute; reflexivity |]. split; [vm_compute; reflexivity |].
  apply (do_execute_quits_early CodeManager_new magic stata_do post refresh
           "%help" false start); vm_compute; reflexivity.
Defined.

Lemma reply_shape_run :
  complete "di 1" start = true
  /\ quits "di 1" start = None
  /\ rc_of "di 1" start = 0
  /\ rc_of "bad 1" start = 198
  /\ (let reply := (execute "di 1" true start).1.1 in
      let rc := rc_of "di 1" start in
      let ec := execution_count (posted "di 1" start) in
      (rc = 0 ->
         reply = <[ "user_expressions" := VDict [] ]>
                   (<[ "payload" := VList [] ]>
                      (<[ "status" := VStr "ok" ]>
                         {[ "execution_count" := VInt ec ]}))
         /\ dom reply
            = {[ "status"; "execution_count"; "payload"; "user_expressions" ]})
      /\ (rc <> 0 ->
         reply = <[ "status" := VStr "error" ]> {[ "execution_count" := VInt ec ]}
         /\ dom reply = {[ "status"; "execution_count" ]}
         /\ reply !! "payload" = None
         /\ reply !! "user_expressions" = None))
  /\ (let reply := (execute "bad 1" false start).1.1 in
      reply = <[ "status" := VStr "error" ]>
                {[ "execution_count" := VInt (execution_count (posted "bad 1" start)) ]}
      /\ dom reply = {[ "status"; "execution_count" ]}
      /\ reply !! "payload" = None
      /\ reply !! "user_expressions" = None).
Proof.
  split; [vm_compute; reflexivity |]. split; [vm_compute; reflexivity |].
  split; [vm_compute; reflexivity |]. split; [vm_compute; reflexivity |].
  split.
  - apply (do_execute_reply_shape CodeManager_new magic stata_do post refresh
             "di 1" true start); vm_compute; reflexivity.
  - apply (proj2 (do_execute_reply_shape CodeManager_new magic stata_do post refresh
                    "bad 1" false start ltac:(vm_compute; reflexivity)
                    ltac:(vm_compute; reflexivity))).
    vm_compute. discriminate.
Defined.

Lemma balanced_block_run :
  Chunker.balanced block = true
  /\ Chunker.has_directive block = false
  /\ Chunker.ends_in_continuation block = false
  /\ Chunker.unmatched_openers "foreach x in a {" = 1%nat
  /\ Chunker.unmatched_openers close_open = 1%nat
  /\ (Chunker.is_complete (Chunker.tokenize block (sc_delimit_mode start)) = true
      /\ (do_is_complete (Chunker.CodeManager md5) block start).1.1
         = {[ "status" := VStr "complete" ]}
      /\ Chunker.end_mode (Chunker.tokenize block (sc_delimit_mode start))
         = sc_delimit_mode start)
  /\ (Chunker.is_complete
        (Chunker.tokenize "foreach x in a {" (sc_delimit_mode start)) = false
      /\ (do_is_complete (Chunker.CodeManager md5) "foreach x in a {" start).1.1
           !! "status" = Some (VStr "incomplete"))
  /\ (Chunker.is_complete (Chunker.tokenize close_open (sc_delimit_mode start)) = false
      /\ (do_is_complete (Chunker.CodeManager md5) close_open start).1.1
           !! "status" = Some (VStr "incomplete")).
Proof.
  split; [vm_compute; reflexivity |]. split; [vm_compute; reflexivity |].
  split; [vm_compute; reflexivity |]. split; [vm_compute; reflexivity |].
  split; [vm_compute; reflexivity |].
  split; [| split].
  - apply (proj1 (ChunkerFacts.balanced_text_is_complete md5 block start));
      vm_compute; reflexivity.
  - apply (proj1 (proj2 (proj2 (ChunkerFacts.balanced_text_is_complete
                                  md5 "foreach x in a {" start))));
      vm_compute; reflexivity.
  - apply (proj1 (proj2 (proj2 (ChunkerFacts.balanced_text_is_complete
                                  md5 close_open start))));
      vm_compute; reflexivity.
Defined.

(** C7 fails as stated: [di 1 + ///] has no brace and no directive,
    and it is not complete in either mode, because its last line asks
    for a continuation. *)
Lemma open_continuation_is_incomplete :
  Chunker.balanced "di 1 + ///" = true
  /\ Chunker.has_directive "di 1 + ///" = false
  /\ Chunker.is_complete (Chunker.tokenize "di 1 + ///" false) = false
  /\ Chunker.is_complete (Chunker.tokenize "di 1 + ///" true) = false
  /\ (ask "di 1 + ///" start).1.1 !! "status" = Some (VStr "incomplete").
Proof. repeat split; vm_compute; reflexivity. Qed.

Lemma halt_run :
  let r := (Dispatcher.dispatch (list string) send
              (["di 1"] ++ "bad 2" :: ["di 3"]) []).1 in
  Dispatcher.completes (list string) send ["di 1"] [] = Some ["di 1"]
  /\ send "bad 2" ["di 1"] = (Some (198, "r(198);", []), ["di 1"])
  /\ Dispatcher.outcomes r
     = [Dispatcher.Completed; Dispatcher.Failed 198; Dispatcher.Unattempted]
  /\ (Dispatcher.overall r = Dispatcher.Errored 198
      /\ Dispatcher.return_code r <> 0
      /\ Dispatcher.outcomes r
         = replicate (length ["di 1"]) Dispatcher.Completed
           ++ Dispatcher.Failed 198
              :: replicate (length ["di 3"]) Dispatcher.Unattempted
      /\ (Dispatcher.dispatch (list string) send
            (["di 1"] ++ "bad 2" :: ["di 3"]) []).2 = ["di 1"]
      /\ Dispatcher.tally Dispatcher.is_completed (Dispatcher.outcomes r)
         = length ["di 1"]
      /\ Dispatcher.tally Dispatcher.is_failed (Dispatcher.outcomes r) = 1%nat
      /\ Dispatcher.tally Dispatcher.is_unattempted (Dispatcher.outcomes r)
         = length ["di 3"]
      /\ (length ["di 1"] = 1%nat -> length ["di 3"] = 1%nat ->
          Dispatcher.tally Dispatcher.is_completed (Dispatcher.outcomes r) = 1%nat
          /\ Dispatcher.tally Dispatcher.is_failed (Dispatcher.outcomes r) = 1%nat
          /\ Dispatcher.tally Dispatcher.is_unattempted (Dispatcher.outcomes r)
             = 1%nat)).
Proof.
  cbn zeta. split; [vm_compute; reflexivity |]. split; [vm_compute; reflexivity |].
  split; [vm_compute; reflexivity |].
  apply (proj1 (DispatcherFacts.dispatch_halts_on_first_error (list string) send
                  ["di 1"] "bad 2" ["di 3"] [] ["di 1"]
                  ltac:(vm_compute; reflexivity))
           198 "r(198);" [] ["di 1"]).
  - vm_compute; reflexivity.
  - discriminate.
Defined.

End Runs.

(** * Every path of do_execute *)

Section PathFacts.

Context {Config StataSession CompletionsManager MagicsData Graph Res : Type}.

Variable CodeManager_new : string -> bool -> CodeManager.t Config.
Variable magic :
  string -> @StataKernel Config StataSession CompletionsManager MagicsData Graph ->
  string * @StataKernel Config StataSession CompletionsManager MagicsData Graph.
Variable stata_do :
  string -> string -> string ->
  @StataKernel Config StataSession CompletionsManager MagicsData Graph ->
  (Z * Res) * @StataKernel Config StataSession CompletionsManager MagicsData Graph.
Variable post refresh :
  @StataKernel Config StataSession CompletionsManager MagicsData Graph ->
  @StataKernel Config StataSession CompletionsManager MagicsData Graph.

Abbreviation execute := (do_execute CodeManager_new magic stata_do post refresh).
Abbreviation complete := (complete_for CodeManager_new).
Abbreviation quits := (intercepted magic).
Abbreviation goes := (dispatches CodeManager_new magic).
Abbreviation cm_of := (submission_cm CodeManager_new magic).
Abbreviation rc_of := (submission_rc CodeManager_new magic stata_do).
Abbreviation posted := (after_post CodeManager_new magic stata_do post).
Abbreviation ask := (do_is_complete (StataSession := StataSession)
                       (CompletionsManager := CompletionsManager)
                       (MagicsData := MagicsData) (Graph := Graph)
                       CodeManager_new).

(** Rewrites the call with the run lemma of the path it takes. *)
Ltac on_each_path code silent k :=
  let Hc := fresh "Hc" in let Hq := fresh "Hq" in
  unfold dispatches;
  destruct (complete code k) eqn:Hc;
  [ destruct (quits code k) eqn:Hq;
    [ rewrite (run_intercepted CodeManager_new magic stata_do post refresh
                 code silent k _ Hc Hq)
    | destruct silent;
      [ rewrite (run_silent CodeManager_new magic stata_do post refresh code k Hc Hq)
      | rewrite (run_loud CodeManager_new magic stata_do post refresh code k Hc Hq) ] ]
  | rewrite (run_incomplete CodeManager_new magic stata_do post refresh
               code silent k Hc) ];
  cbn [fst snd andb negb].

Ltac name_events code k :=
  unfold dispatch_prefix;
  let t := fresh "t" in let h := fresh "h" in let x := fresh "x" in
  destruct (dispatch_event_do CodeManager_new magic code k) as (t & h & x & ->).

(** X1: how often each effect happens in one call of do_execute, on
    every path. *)
Theorem effect_census code silent k :
  let tr := (execute code silent k).2 in
  let d := goes code k in
  count is_tokenize tr = (if d then 2 else 1)%nat
  /\ count is_magic tr = (if complete code k then 1 else 0)%nat
  /\ count is_get_text tr = (if d then 1 else 0)%nat
  /\ count is_dispatch tr = (if d then 1 else 0)%nat
  /\ count is_post tr = (if d then 1 else 0)%nat
  /\ count is_refresh tr = (if d then 1 else 0)%nat
  /\ count is_write tr = (if (d && negb silent)%bool then 1 else 0)%nat
  /\ (count is_send tr <= count is_write tr)%nat
  /\ count is_read tr = (if d then (if silent then 2 else 3) else 1)%nat.
Proof.
  cbn zeta. on_each_path code silent k.
  - repeat split; try reflexivity; vm_compute; lia.
  - name_events code k. repeat split; try reflexivity; vm_compute; lia.
  - name_events code k.
    destruct (notification_cases CodeManager_new magic stata_do post code k)
      as [E | [m E]]; rewrite E; repeat split; try reflexivity; vm_compute; lia.
  - repeat split; try reflexivity; vm_compute; lia.
Qed.

(** X2: in a submission that is dispatched, the dispatcher is called
    with exactly what get_text returns for the CodeManager built from
    the text the interceptor returned and the flag as it was then; the
    chunking pass, the dispatch and the post hook follow each other, no
    collaborator is called in between or again, and the refresh of the
    completions is the last effect, whatever the return code. *)
Theorem dispatch_data_flow code silent k :
  goes code k = true ->
  let k1 := (magic code k).2 in
  let cm := CodeManager_new (magic code k).1 (sc_delimit_mode k1) in
  let planned := CodeManager.get_text cm (conf k1) in
  exists tail,
    (execute code silent k).2
      = [ EvReadDelim (sc_delimit_mode k);
          EvCodeManager code (sc_delimit_mode k);
          EvMagic code;
          EvReadDelim (sc_delimit_mode k1);
          EvCodeManager (magic code k).1 (sc_delimit_mode k1);
          EvGetText;
          EvDo planned.1.1 planned.1.2 planned.2;
          EvPost ] ++ tail ++ [EvRefresh]
    /\ count is_tokenize tail = 0%nat
    /\ count is_magic tail = 0%nat
    /\ count is_get_text tail = 0%nat
    /\ count is_dispatch tail = 0%nat
    /\ count is_post tail = 0%nat
    /\ count is_refresh tail = 0%nat.
Proof.
  intros Hd. cbn zeta. revert Hd. on_each_path code silent k; try discriminate;
    intros _.
  - exists []. unfold dispatch_prefix, dispatch_event, submission_cm.
    destruct (CodeManager.get_text _ _) as [[t h] x]. repeat split; reflexivity.
  - exists ([EvReadDelim (sc_delimit_mode (posted code k))]
            ++ notification CodeManager_new magic stata_do post code k
            ++ [EvWriteDelim (CodeManager.ends_sc (cm_of code k))]).
    unfold dispatch_prefix, dispatch_event, submission_cm.
    destruct (CodeManager.get_text _ _) as [[t h] x].
    split; [by rewrite <- !app_assoc |].
    destruct (notification_cases CodeManager_new magic stata_do post code k)
      as [E | [m E]]; rewrite E; repeat split; reflexivity.
Qed.

(** X3: do_is_complete and the guard of do_execute agree: in the same
    kernel state do_is_complete answers [complete] exactly for the texts
    that do_execute hands to the interceptor, and it adds the indent of
    four blanks exactly for the texts that do_execute rejects. *)
Theorem is_complete_agrees_with_guard code silent k :
  ((ask code k).1.1 !! "status" = Some (VStr "complete")
   <-> count is_magic (execute code silent k).2 = 1%nat)
  /\ ((ask code k).1.1 !! "indent" = Some (VStr "    ")
      <-> count is_magic (execute code silent k).2 = 0%nat)
  /\ ((ask code k).1.1 !! "status" = Some (VStr "incomplete")
      <-> execute code silent k
          = (<[ "execution_count" := VInt (execution_count k) ]>
               {[ "status" := VStr "error" ]}, k, (ask code k).2)).
Proof.
  unfold do_is_complete, bind. rewrite run_is_complete. cbn [fst snd].
  on_each_path code silent k.
  - repeat split; intros; try done.
  - name_events code k. repeat split; intros; try done.
  - name_events code k.
    destruct (notification_cases CodeManager_new magic stata_do post code k)
      as [E | [m E]]; rewrite E; repeat split; intros; try done.
  - repeat split; intros; try done.
Qed.

(** X4: if the interceptor, the dispatcher, the post hook and the
    refresh of the completions leave sc_delimit_mode alone, then after a
    call of do_execute the flag is cm.ends_sc when the submission was
    dispatched and not silent, and it is what it was before the call on
    every other path. *)
Theorem flag_after_call code silent k :
  (forall c k0, sc_delimit_mode (magic c k0).2 = sc_delimit_mode k0) ->
  (forall t h x k0, sc_delimit_mode (stata_do t h x k0).2 = sc_delimit_mode k0) ->
  (forall k0, sc_delimit_mode (post k0) = sc_delimit_mode k0) ->
  (forall k0, sc_delimit_mode (refresh k0) = sc_delimit_mode k0) ->
  sc_delimit_mode (execute code silent k).1.2
    = if (goes code k && negb silent)%bool
      then CodeManager.ends_sc (cm_of code k)
      else sc_delimit_mode k.
Proof.
  intros Hm Hd Hp Hr. on_each_path code silent k.
  - apply Hm.
  - rewrite Hr. unfold after_post, dispatched.
    destruct (CodeManager.get_text _ _) as [[t h] x]. by rewrite Hp, Hd, Hm.
  - rewrite Hr. reflexivity.
  - reflexivity.
Qed.

Lemma trace_starts code silent k :
  exists tail,
    (execute code silent k).2
      = [EvReadDelim (sc_delimit_mode k); EvCodeManager code (sc_delimit_mode k)]
        ++ tail.
Proof.
  on_each_path code silent k; unfold dispatch_prefix; eauto.
Qed.

(** X5: the mode persists.  After a dispatched submission that is not
    silent, and if the refresh of the completions leaves the flag alone,
    the kernel is in the mode the text ended in: the next do_execute
    starts by checking its text in that mode, do_is_complete decides in
    that mode, and do_complete asks for completions in that mode. *)
Theorem mode_persists code k :
  goes code k = true ->
  (forall k0, sc_delimit_mode (refresh k0) = sc_delimit_mode k0) ->
  let k' := (execute code false k).1.2 in
  let ends := CodeManager.ends_sc (cm_of code k) in
  sc_delimit_mode k' = ends
  /\ (forall code2 silent2, exists tail,
        (execute code2 silent2 k').2
        = [EvReadDelim ends; EvCodeManager code2 ends] ++ tail)
  /\ (forall code2, complete code2 k' = CodeManager.is_complete (CodeManager_new code2 ends))
  /\ (forall code2 cursor_pos, (completion_request code2 cursor_pos k').2 = ends).
Proof.
  intros Hd Hr. cbn zeta.
  assert (E : sc_delimit_mode (execute code false k).1.2
              = CodeManager.ends_sc (cm_of code k)).
  { unfold dispatches in Hd.
    destruct (complete code k) eqn:Hc; [| discriminate].
    destruct (quits code k) eqn:Hq; [discriminate |].
    rewrite (run_loud CodeManager_new magic stata_do post refresh code k Hc Hq).
    cbn [fst snd]. by rewrite Hr. }
  split; [exact E |]. split; [| split].
  - intros code2 silent2.
    destruct (trace_starts code2 silent2 (execute code false k).1.2) as [tail Ht].
    exists tail. by rewrite Ht, E.
  - intros code2. unfold complete_for. by rewrite E.
  - intros code2 cursor_pos. unfold completion_request. cbn [snd]. exact E.
Qed.

(** X6: every message do_execute sends announces a change of mode that
    the same call then stores: it is a stream message on stdout whose
    text is [delimiter now ;] or [delimiter now cr], it follows a load of
    the flag that gave the other mode, and the store of the announced
    mode comes right after it.  This holds on every path. *)
Theorem messages_announce_the_store code silent k :
  announces None (execute code silent k).2.
Proof.
  on_each_path code silent k.
  - cbn. tauto.
  - name_events code k. cbn. tauto.
  - name_events code k. unfold notification.
    destruct (CodeManager.ends_sc (cm_of code k)) eqn:Ee,
      (sc_delimit_mode (posted code k)) eqn:Es; cbn; tauto.
  - cbn. tauto.
Qed.

(** X7: what do_execute changes by itself.  When the interceptor, the
    dispatcher, the post hook and the refresh of the completions give
    the kernel back as they got it, do_execute leaves every attribute as
    it was, except that a dispatched submission that is not silent sets
    sc_delimit_mode to cm.ends_sc; the execution count in the reply of a
    submission that is not intercepted is the one the kernel had. *)
Theorem do_execute_footprint code silent k :
  (forall c k0, (magic c k0).2 = k0) ->
  (forall t h x k0, (stata_do t h x k0).2 = k0) ->
  (forall k0, post k0 = k0) ->
  (forall k0, refresh k0 = k0) ->
  (execute code silent k).1.2
    = (if (goes code k && negb silent)%bool
       then with_sc_delimit_mode (CodeManager.ends_sc (cm_of code k)) k
       else k)
  /\ graphs (execute code silent k).1.2 = graphs k
  /\ execution_count (execute code silent k).1.2 = execution_count k
  /\ (quits code k = None ->
      (execute code silent k).1.1 !! "execution_count"
      = Some (VInt (execution_count k))).
Proof.
  intros Hm Hd Hp Hr.
  assert (Hposted : posted code k = k).
  { unfold after_post, dispatched.
    destruct (CodeManager.get_text _ _) as [[t h] x]. by rewrite Hp, Hd, Hm. }
  on_each_path code silent k; rewrite ?Hr, ?Hm, ?Hposted.
  - repeat split. discriminate.
  - repeat split. intros _. apply return_obj_count.
  - repeat split. intros _. apply return_obj_count.
  - repeat split.
Qed.

End PathFacts.

(** * Slices, do_complete and send_image *)

Module SliceFacts.
Import Slice.

Lemma append_cons a s t : String a s +:+ t = String a (s +:+ t).
Proof. reflexivity. Qed.

Lemma append_empty t : EmptyString +:+ t = t.
Proof. reflexivity. Qed.

Lemma length_append s t :
  String.length (s +:+ t) = (String.length s + String.length t)%nat.
Proof.
  induction s as [| a s IH]; [reflexivity |].
  rewrite append_cons. cbn [String.length]. by rewrite IH.
Qed.

Lemma take_drop n s : str_take n s +:+ str_drop n s = s.
Proof.
  revert s. induction n as [| n IH]; intros [| a s]; try reflexivity.
  cbn [str_take str_drop]. rewrite append_cons. by rewrite IH.
Qed.

Lemma length_take n s :
  String.length (str_take n s) = Nat.min n (String.length s).
Proof.
  revert s. induction n as [| n IH]; intros [| a s]; try reflexivity.
  cbn [str_take String.length]. rewrite IH. reflexivity.
Qed.

Lemma take_all n s : (String.length s <= n)%nat -> str_take n s = s.
Proof.
  revert s. induction n as [| n IH]; intros [| a s] H; try reflexivity.
  - cbn in H. lia.
  - cbn [str_take]. cbn [String.length] in H. rewrite IH; [reflexivity | lia].
Qed.

Lemma take_app s t : str_take (String.length s) (s +:+ t) = s.
Proof.
  induction s as [| a s IH]; [by destruct t |].
  rewrite append_cons. cbn [String.length str_take]. by rewrite IH.
Qed.

Lemma drop_app s t : str_drop (String.length s) (s +:+ t) = t.
Proof.
  induction s as [| a s IH]; [by destruct t |].
  rewrite append_cons. cbn [String.length str_drop]. exact IH.
Qed.

(** [s[:-2]] drops the last two characters, whatever they are. *)
Lemma slice_drops_two s a b :
  slice (s +:+ String a (String b EmptyString)) None (Some (-2)) = s.
Proof.
  unfold slice, bound. rewrite length_append. cbn [String.length Z.ltb Z.compare].
  replace (Z.to_nat _ - 0)%nat with (String.length s) by lia.
  cbn [str_drop]. apply take_app.
Qed.

(** [s[:-2]] of a str of at most two characters is empty. *)
Lemma slice_short s :
  (String.length s <= 2)%nat -> slice s None (Some (-2)) = EmptyString.
Proof.
  intros H. unfold slice, bound. cbn [Z.ltb Z.compare].
  replace (Z.to_nat _ - 0)%nat with 0%nat by lia. reflexivity.
Qed.

(** A text that ends in [ext] ends in a suffix of the same length
    exactly when [ext] is that suffix. *)
Lemma endswith_app stem ext suffix :
  String.length ext = String.length suffix ->
  endswith (stem +:+ ext) suffix = String.eqb ext suffix.
Proof.
  intros H. unfold endswith. rewrite length_append, <- H.
  replace (String.length stem + String.length ext - String.length ext)%nat
    with (String.length stem) by lia.
  rewrite drop_app.
  replace (Nat.leb _ _) with true; [reflexivity |].
  symmetry. apply Nat.leb_le. lia.
Qed.

Lemma endswith_short s suffix :
  (String.length s < String.length suffix)%nat -> endswith s suffix = false.
Proof.
  intros H. unfold endswith.
  replace (Nat.leb _ _) with false; [reflexivity |].
  symmetry. apply Nat.leb_gt. lia.
Qed.

End SliceFacts.

Section CompletionFacts.

Context {Config StataSession CompletionsManager MagicsData Graph : Type}.
Context {Env Chunk Rcomp : Type}.

Variable get_env :
  string -> string -> bool ->
  @StataKernel Config StataSession CompletionsManager MagicsData Graph ->
  (Env * Z * Chunk * Rcomp)
  * @StataKernel Config StataSession CompletionsManager MagicsData Graph.
Variable get :
  Chunk -> Env -> Rcomp ->
  @StataKernel Config StataSession CompletionsManager MagicsData Graph ->
  list string * @StataKernel Config StataSession CompletionsManager MagicsData Graph.

(** X8: for a cursor position that is not negative, do_complete hands
    get_env the text before the cursor and the next two characters: the
    two pieces, one after the other, are the beginning of the text, the
    first has cursor_pos characters (all of them when the cursor is past
    the end), the second at most two; and the mode is the current flag. *)
Theorem completion_request_splits (code : string) (cursor_pos : Z)
  (k : @StataKernel Config StataSession CompletionsManager MagicsData Graph) :
  0 <= cursor_pos ->
  let request := completion_request code cursor_pos k in
  (exists rest, code = request.1.1 +:+ request.1.2 +:+ rest)
  /\ String.length request.1.1 = Nat.min (Z.to_nat cursor_pos) (String.length code)
  /\ String.length request.1.2
     = Nat.min 2 (String.length code - Z.to_nat cursor_pos)
  /\ request.2 = sc_delimit_mode k.
Proof.
  intros Hpos. cbn zeta. unfold completion_request. cbn [fst snd].
  unfold Slice.slice, Slice.bound.
  destruct (Z.ltb_spec cursor_pos 0) as [? | _]; [lia |].
  destruct (Z.ltb_spec (cursor_pos + 2) 0) as [? | _]; [lia |].
  set (n := String.length code).
  replace (Z.to_nat (Z.min (Z.of_nat n) (Z.max 0 cursor_pos)) - 0)%nat
    with (Nat.min (Z.to_nat cursor_pos) n) by lia.
  replace (Z.to_nat (Z.min (Z.of_nat n) (Z.max 0 cursor_pos)))
    with (Nat.min (Z.to_nat cursor_pos) n) by lia.
  replace (Z.to_nat (Z.min (Z.of_nat n) (Z.max 0 (cursor_pos + 2)))
           - Nat.min (Z.to_nat cursor_pos) n)%nat
    with (Nat.min 2 (n - Z.to_nat cursor_pos)) by lia.
  cbn [Slice.str_drop].
  set (p := Nat.min (Z.to_nat cursor_pos) n).
  set (m := Nat.min 2 (n - Z.to_nat cursor_pos)).
  assert (Hdrop : String.length (Slice.str_drop p code) = (n - p)%nat).
  { pose proof (SliceFacts.take_drop p code) as E.
    apply (f_equal String.length) in E.
    rewrite SliceFacts.length_append, SliceFacts.length_take in E. fold n in E. lia. }
  split; [| split; [| split]].
  - exists (Slice.str_drop m (Slice.str_drop p code)).
    by rewrite SliceFacts.take_drop, SliceFacts.take_drop.
  - rewrite SliceFacts.length_take. fold n. lia.
  - rewrite SliceFacts.length_take, Hdrop. lia.
  - reflexivity.
Qed.

(** X9: a cursor position at or past the end of the text is not
    clamped: get_env receives the whole text and no lookahead, and the
    reply carries cursor_end as given, with status [ok], the
    cursor_start that get_env returned and the matches of get. *)
Theorem completion_past_the_end (code : string) (cursor_pos : Z)
  (k : @StataKernel Config StataSession CompletionsManager MagicsData Graph) :
  Z.of_nat (String.length code) <= cursor_pos ->
  let request := completion_request code cursor_pos k in
  let found := get_env code EmptyString (sc_delimit_mode k) k in
  let reply := (do_complete get_env get code cursor_pos k).1 in
  request = (code, EmptyString, sc_delimit_mode k)
  /\ reply !! "cursor_end" = Some (VInt cursor_pos)
  /\ reply !! "cursor_start" = Some (VInt found.1.1.1.2)
  /\ reply !! "status" = Some (VStr "ok")
  /\ reply !! "matches"
     = Some (VList (VStr <$> (get found.1.1.2 found.1.1.1.1 found.1.2 found.2).1)).
Proof.
  intros Hpos. cbn zeta.
  assert (E : completion_request code cursor_pos k
              = (code, EmptyString, sc_delimit_mode k)).
  { unfold completion_request, Slice.slice, Slice.bound.
    destruct (Z.ltb_spec cursor_pos 0) as [? | _]; [lia |].
    destruct (Z.ltb_spec (cursor_pos + 2) 0) as [? | _]; [lia |].
    set (n := String.length code) in *.
    replace (Z.to_nat (Z.min (Z.of_nat n) (Z.max 0 cursor_pos)) - 0)%nat with n by lia.
    replace (Z.to_nat (Z.min (Z.of_nat n) (Z.max 0 (cursor_pos + 2)))
             - Z.to_nat (Z.min (Z.of_nat n) (Z.max 0 cursor_pos)))%nat
      with 0%nat by lia.
    cbn [Slice.str_drop]. rewrite SliceFacts.take_all by (fold n; lia).
    by destruct (Slice.str_drop _ code). }
  split; [exact E |]. unfold do_complete. rewrite E.
  destruct (get_env code EmptyString (sc_delimit_mode k) k)
    as [[[[env pos] chunk] rcomp] k1].
  cbn [fst snd]. destruct (get chunk env rcomp k1) as [matches k2].
  cbn [fst snd]. repeat split; reflexivity.
Qed.

End CompletionFacts.

Section ImageFacts.

Context {Float : Type}.
Variable ElementTree_parse : string -> Image.Raised + Image.Root.
Variable Image_open : string -> Image.Raised + (Z * Z).
Variable read_base64 : string -> Image.Raised + string.
Variable int : string -> option Z.
Variable truediv : Z -> Z -> Float.

Abbreviation show :=
  (Image.send_image ElementTree_parse Image_open read_base64 int truediv).

(** X10: send_image matches the extension as written.  A path with a
    four-character ending other than [.svg] and [.png] (such as [.PNG],
    [.SVG] or [.pdf]), or a path of fewer than four characters, sends
    nothing and raises nothing, whatever the libraries would do with the
    file. *)
Theorem other_extensions_show_nothing :
  (forall stem ext,
      String.length ext = 4%nat ->
      String.eqb ext ".svg" = false ->
      String.eqb ext ".png" = false ->
      Image.send_image ElementTree_parse Image_open read_base64 int truediv
        (stem +:+ ext) = inr [])
  /\ (forall path, (String.length path < 4)%nat -> show path = inr [])
  /\ (forall stem,
        show (stem +:+ ".PNG") = inr []
        /\ show (stem +:+ ".SVG") = inr []
        /\ show (stem +:+ ".pdf") = inr []).
Proof.
  assert (H4 : forall stem ext,
             String.length ext = 4%nat ->
             String.eqb ext ".svg" = false ->
             String.eqb ext ".png" = false ->
             show (stem +:+ ext) = inr []).
  { intros stem ext Hl Hs Hp. unfold Image.send_image.
    rewrite !SliceFacts.endswith_app by exact Hl. by rewrite Hs, Hp. }
  split; [exact H4 |]. split.
  - intros path Hl. unfold Image.send_image.
    rewrite !SliceFacts.endswith_short by (cbn; lia). reflexivity.
  - intros stem. repeat split; apply H4; reflexivity.
Qed.

(** X11: for an svg file the size in the metadata is [int] of the width
    and height attributes without their last two characters; the two
    characters are dropped unchecked, whatever they are. *)
Theorem svg_size_drops_two_characters stem root w h a b c d x y :
  ElementTree_parse (stem +:+ ".svg") = inr root ->
  Image.attrib root !! "width" = Some (w +:+ String a (String b EmptyString)) ->
  Image.attrib root !! "height" = Some (h +:+ String c (String d EmptyString)) ->
  int w = Some x ->
  int h = Some y ->
  show (stem +:+ ".svg")
  = inr [("display_data",
          Image.CDict
            [("data",
              Image.CDict [("text/plain", Image.CStr Image.no_display_msg);
                           ("image/svg+xml", Image.CStr (Image.tostring root))]);
             ("metadata",
              Image.CDict [("image/svg+xml",
                            Image.CDict [("width", Image.CInt x);
                                         ("height", Image.CInt y)])])])].
Proof.
  intros Hp Hw Hh Hx Hy. unfold Image.send_image.
  rewrite SliceFacts.endswith_app by reflexivity. cbn [String.eqb Ascii.eqb].
  rewrite Hp. unfold Image.attribute_size.
  rewrite Hw, Hh, !SliceFacts.slice_drops_two, Hx, Hy. reflexivity.
Qed.

(** X12: an svg file whose width attribute is missing makes send_image
    raise KeyError, and one whose width attribute has at most two
    characters makes it call [int] on the empty str, which raises
    ValueError; in both cases nothing is sent, and the height is not
    looked at. *)
Theorem svg_bad_width_raises stem root :
  ElementTree_parse (stem +:+ ".svg") = inr root ->
  int EmptyString = None ->
  (Image.attrib root !! "width" = None ->
   show (stem +:+ ".svg") = inl (Image.KeyError "width"))
  /\ (forall v, Image.attrib root !! "width" = Some v ->
                (String.length v <= 2)%nat ->
                show (stem +:+ ".svg") = inl (Image.ValueError EmptyString)).
Proof.
  intros Hp Hint. split.
  - intros Hw. unfold Image.send_image.
    rewrite SliceFacts.endswith_app by reflexivity. cbn [String.eqb Ascii.eqb].
    rewrite Hp. unfold Image.attribute_size. by rewrite Hw.
  - intros v Hw Hl. unfold Image.send_image.
    rewrite SliceFacts.endswith_app by reflexivity. cbn [String.eqb Ascii.eqb].
    rewrite Hp. unfold Image.attribute_size.
    by rewrite Hw, (SliceFacts.slice_short v Hl), Hint.
Qed.

(** X13: an svg file is never opened as an image and a png file is never
    parsed: what send_image does with a path that ends in [.svg] does
    not depend on the image library, the file reader or the division,
    and what it does with a path that ends in [.png] does not depend on
    the parser or on [int]; for a png file the sizes in the metadata are
    the halves of the pixel sizes. *)
Theorem send_image_uses_one_library stem
  (parse' : string -> Image.Raised + Image.Root)
  (open' : string -> Image.Raised + (Z * Z))
  (read' : string -> Image.Raised + string)
  (int' : string -> option Z)
  (truediv' : Z -> Z -> Float) :
  show (stem +:+ ".svg")
    = Image.send_image ElementTree_parse open' read' int truediv' (stem +:+ ".svg")
  /\ show (stem +:+ ".png")
     = Image.send_image parse' Image_open read_base64 int' truediv (stem +:+ ".png")
  /\ (forall w h img,
        Image_open (stem +:+ ".png") = inr (w, h) ->
        read_base64 (stem +:+ ".png") = inr img ->
        show (stem +:+ ".png")
        = inr [("display_data",
                Image.CDict
                  [("data",
                    Image.CDict [("text/plain", Image.CStr Image.no_display_msg);
                                 ("image/png", Image.CStr img)]);
                   ("metadata",
                    Image.CDict [("image/png",
                                  Image.CDict
                                    [("width", Image.CFloat (truediv w 2));
                                     ("height", Image.CFloat (truediv h 2))])])])]).
Proof.
  unfold Image.send_image.
  rewrite !SliceFacts.endswith_app by reflexivity. cbn [String.eqb Ascii.eqb].
  split; [reflexivity |]. split; [reflexivity |].
  intros w h img Ho Hr. by rewrite Ho, Hr.
Qed.

End ImageFacts.

(** * More runs on the small session *)

Module Runs2.
Import Session.

Abbreviation goes := (dispatches CodeManager_new magic).
Abbreviation cm_of := (submission_cm CodeManager_new magic).
Abbreviation rc_of := (submission_rc CodeManager_new magic stata_do).
Abbreviation show :=
  (Image.send_image Session2.ElementTree_parse Session2.Image_open
     Session2.read_base64 Session2.int Session2.truediv).

Lemma magic_keeps_flag c k0 : sc_delimit_mode (magic c k0).2 = sc_delimit_mode k0.
Proof. unfold magic. destruct (String.prefix "%" c); reflexivity. Qed.

Lemma stata_do_keeps_flag t h x k0 :
  sc_delimit_mode (stata_do t h x k0).2 = sc_delimit_mode k0.
Proof. unfold stata_do. destruct (Dispatcher.dispatch _ _ _ _). reflexivity. Qed.

Lemma data_flow_run :
  goes "di 1" start = true
  /\ (let k1 := (magic "di 1" start).2 in
      let cm := CodeManager_new (magic "di 1" start).1 (sc_delimit_mode k1) in
      let planned := CodeManager.get_text cm (conf k1) in
      exists tail,
        (execute "di 1" true start).2
          = [ EvReadDelim (sc_delimit_mode start);
              EvCodeManager "di 1" (sc_delimit_mode start);
              EvMagic "di 1";
              EvReadDelim (sc_delimit_mode k1);
              EvCodeManager (magic "di 1" start).1 (sc_delimit_mode k1);
              EvGetText;
              EvDo planned.1.1 planned.1.2 planned.2;
              EvPost ] ++ tail ++ [EvRefresh]
        /\ count is_tokenize tail = 0%nat
        /\ count is_magic tail = 0%nat
        /\ count is_get_text tail = 0%nat
        /\ count is_dispatch tail = 0%nat
        /\ count is_post tail = 0%nat
        /\ count is_refresh tail = 0%nat).
Proof.
  split; [vm_compute; reflexivity |].
  apply (dispatch_data_flow CodeManager_new magic stata_do post refresh
           "di 1" true start).
  vm_compute; reflexivity.
Defined.

Lemma flag_after_call_run :
  sc_delimit_mode (execute "#delimit ;" true start).1.2 = false
  /\ sc_delimit_mode (execute "#delimit ;" true start).1.2
     = (if (goes "#delimit ;" start && negb true)%bool
        then CodeManager.ends_sc (cm_of "#delimit ;" start)
        else sc_delimit_mode start).
Proof.
  split; [vm_compute; reflexivity |].
  apply (flag_after_call CodeManager_new magic stata_do post refresh
           "#delimit ;" true start).
  - exact magic_keeps_flag.
  - exact stata_do_keeps_flag.
  - reflexivity.
  - reflexivity.
Defined.

Lemma mode_persists_run :
  goes "#delimit ;" start = true
  /\ (let k' := (execute "#delimit ;" false start).1.2 in
      let ends := CodeManager.ends_sc (cm_of "#delimit ;" start) in
      sc_delimit_mode k' = ends
      /\ (forall code2 silent2, exists tail,
            (execute code2 silent2 k').2
            = [EvReadDelim ends; EvCodeManager code2 ends] ++ tail)
      /\ (forall code2,
            complete_for CodeManager_new code2 k'
            = CodeManager.is_complete (CodeManager_new code2 ends))
      /\ (forall code2 cursor_pos, (completion_request code2 cursor_pos k').2 = ends)).
Proof.
  split; [vm_compute; reflexivity |].
  apply (mode_persists CodeManager_new magic stata_do post refresh "#delimit ;" start).
  - vm_compute; reflexivity.
  - reflexivity.
Defined.

Lemma completion_request_run :
  completion_request "display" 3 start = ("dis", "pl", false)
  /\ (let request := completion_request "display" 3 start in
      (exists rest, "display" = request.1.1 +:+ request.1.2 +:+ rest)
      /\ String.length request.1.1 = Nat.min (Z.to_nat 3) (String.length "display")
      /\ String.length request.1.2
         = Nat.min 2 (String.length "display" - Z.to_nat 3)
      /\ request.2 = sc_delimit_mode start).
Proof.
  split; [vm_compute; reflexivity |].
  apply (completion_request_splits "display" 3 start). lia.
Defined.

Lemma completion_past_the_end_run :
  let request := completion_request "di" 5 start in
  let found := Session2.get_env "di" EmptyString (sc_delimit_mode start) start in
  let reply := (do_complete Session2.get_env Session2.get "di" 5 start).1 in
  request = ("di", EmptyString, sc_delimit_mode start)
  /\ reply !! "cursor_end" = Some (VInt 5)
  /\ reply !! "cursor_start" = Some (VInt found.1.1.1.2)
  /\ reply !! "status" = Some (VStr "ok")
  /\ reply !! "matches"
     = Some (VList (VStr <$> (Session2.get found.1.1.2 found.1.1.1.1 found.1.2
                                found.2).1)).
Proof.
  apply (completion_past_the_end Session2.get_env Session2.get "di" 5 start).
  vm_compute. discriminate.
Defined.

Lemma svg_size_run :
  show "Graph.svg"
  = inr [("display_data",
          Image.CDict
            [("data",
              Image.CDict [("text/plain", Image.CStr Image.no_display_msg);
                           ("image/svg+xml", Image.CStr "<svg/>")]);
             ("metadata",
              Image.CDict [("image/svg+xml",
                            Image.CDict [("width", Image.CInt 400);
                                         ("height", Image.CInt 300)])])])].
Proof.
  apply (svg_size_drops_two_characters
           Session2.ElementTree_parse Session2.Image_open Session2.read_base64
           Session2.int Session2.truediv "Graph" Session2.graph_root
           "400" "300" "p" "t" "p" "x" 400 300); vm_compute; reflexivity.
Defined.

Lemma svg_bad_width_run :
  show "Bare.svg" = inl (Image.KeyError "width")
  /\ show "Tiny.svg" = inl (Image.ValueError EmptyString).
Proof.
  split.
  - apply (proj1 (svg_bad_width_raises
                    Session2.ElementTree_parse Session2.Image_open
                    Session2.read_base64 Session2.int Session2.truediv "Bare"
                    Session2.bare_root
                    ltac:(vm_compute; reflexivity) ltac:(vm_compute; reflexivity))).
    vm_compute; reflexivity.
  - apply (proj2 (svg_bad_width_raises
                    Session2.ElementTree_parse Session2.Image_open
                    Session2.read_base64 Session2.int Session2.truediv "Tiny"
                    Session2.tiny_root
                    ltac:(vm_compute; reflexivity) ltac:(vm_compute; reflexivity))
             "5").
    + vm_compute; reflexivity.
    + vm_compute. lia.
Defined.

Lemma footprint_run :
  (do_execute CodeManager_new Session2.idle_magic Session2.idle_do Session2.idle
     Session2.idle "#delimit ;" false start).1.2
    = (if (dispatches CodeManager_new Session2.idle_magic "#delimit ;" start
           && negb false)%bool
       then with_sc_delimit_mode
              (CodeManager.ends_sc
                 (submission_cm CodeManager_new Session2.idle_magic "#delimit ;" start))
              start
       else start)
  /\ graphs (do_execute CodeManager_new Session2.idle_magic Session2.idle_do
               Session2.idle Session2.idle "#delimit ;" false start).1.2
     = graphs start
  /\ execution_count (do_execute CodeManager_new Session2.idle_magic Session2.idle_do
                        Session2.idle Session2.idle "#delimit ;" false start).1.2
     = execution_count start
  /\ (intercepted Session2.idle_magic "#delimit ;" start = None ->
      (do_execute CodeManager_new Session2.idle_magic Session2.idle_do Session2.idle
         Session2.idle "#delimit ;" false start).1.1 !! "execution_count"
      = Some (VInt (execution_count start))).
Proof.
  apply (do_execute_footprint CodeManager_new Session2.idle_magic Session2.idle_do
           Session2.idle Session2.idle "#delimit ;" false start); reflexivity.
Defined.

End Runs2.
